(** * Vision towers of Florence-VL: a shallow embedding of
    [llava/model/multimodal_encoder/clip_encoder.py].

    The file wraps two pretrained encoders ([CLIPVisionTower] and
    [FlorenceVisionTower]).  The pretrained-model runtime (checkpoint loading,
    transformer inference, generation) is an external collaborator: it is a
    record of functions, [Library], that the towers call.  Every call into it
    and every [print] is recorded in a chronological trace, so that "how often
    was the loader called" and "with which arguments was generation run" are
    statements about values. *)

From Stdlib Require Import ZArith String List Bool Lia.
Import ListNotations.
Open Scope string_scope.
Open Scope list_scope.
Open Scope Z_scope.

Set Implicit Arguments.
Set Warnings "-register-all".

(** ** Exceptions and results *)

(** The Python exceptions the module can raise.  [LibraryError] stands for any
    failure raised inside the pretrained-model runtime (missing checkpoint,
    shape mismatch, ...), which the towers propagate unchanged. *)
Inductive exn : Type :=
| ValueError (msg : string)
| IndexError
| AttributeError (attr : string)
| ZeroDivisionError
| RuntimeError
| LibraryError (code : nat).

Inductive result (A : Type) : Type :=
| Ok (a : A)
| Err (e : exn).
Arguments Err {A} e.

Definition rbind {A B : Type} (r : result A) (k : A -> result B) : result B :=
  match r with
  | Ok a => k a
  | Err e => Err e
  end.

Definition rmap {A B : Type} (f : A -> B) (r : result A) : result B :=
  rbind r (fun a => Ok (f a)).

(** Reading an attribute that was never assigned raises [AttributeError]. *)
Definition getattr {A : Type} (name : string) (slot : option A) : result A :=
  match slot with
  | Some a => Ok a
  | None => Err (AttributeError name)
  end.

(** A [@property] of an [nn.Module]: when the getter's body raises
    [AttributeError], Python falls back to [nn.Module.__getattr__], which
    raises [AttributeError] again, naming the property itself; any other
    outcome of the body is the outcome of the property. *)
Definition property {A : Type} (name : string) (body : result A) : result A :=
  match body with
  | Err (AttributeError _) => Err (AttributeError name)
  | other => other
  end.

(** Python's [a // b] on integers: floor division, [ZeroDivisionError] on a
    zero divisor.  [Z.div] rounds towards minus infinity for either sign of
    the divisor, as Python does. *)
Definition floordiv (a b : Z) : result Z :=
  if b =? 0 then Err ZeroDivisionError else Ok (a / b).

(** Python's [xs[i]] on a tuple or list: negative indices count from the
    end, anything out of range raises [IndexError]. *)
Definition py_index {A : Type} (xs : list A) (i : Z) : result A :=
  let n := Z.of_nat (length xs) in
  let j := if i <? 0 then i + n else i in
  if (j <? 0) || (n <=? j) then Err IndexError
  else match nth_error xs (Z.to_nat j) with
       | Some x => Ok x
       | None => Err IndexError
       end.

(** ** A state-and-error monad

    A computation reads and updates a state [S] and either returns a value or
    raises; the state reached so far survives a raise, as the effects of a
    Python statement sequence survive an exception. *)
Definition M (S A : Type) : Type := S -> result A * S.

Definition ret {S A : Type} (a : A) : M S A := fun s => (Ok a, s).

Definition bind {S A B : Type} (m : M S A) (k : A -> M S B) : M S B :=
  fun s =>
    match m s with
    | (Ok a, s') => k a s'
    | (Err e, s') => (Err e, s')
    end.

Definition lift {S A : Type} (r : result A) : M S A := fun s => (r, s).

Definition gets {S A : Type} (f : S -> A) : M S A := fun s => (Ok (f s), s).

Definition modify {S : Type} (f : S -> S) : M S unit := fun s => (Ok tt, f s).

Declare Scope result_scope.
Delimit Scope result_scope with result.
Notation "x <- r ;; k" := (rbind r (fun x => k))
  (at level 61, r at next level, right associativity) : result_scope.

Declare Scope monad_scope.
Delimit Scope monad_scope with monad.
Notation "x <- m ;; k" := (bind m (fun x => k))
  (at level 61, m at next level, right associativity) : monad_scope.
Notation "m ;;; k" := (bind m (fun _ => k))
  (at level 61, right associativity) : monad_scope.

(** ** Tensors *)

Inductive Dtype : Type := Float32 | Float16 | BFloat16 | Int64.

Inductive Device : Type := Cpu | Cuda (index : nat).

(** The payload of a tensor: a scalar, or an array of sub-arrays along the
    leading dimension.  An empty array carries no shape of its own: [Arr []]
    stands for every tensor whose leading dimension is 0, whatever its
    rank. *)
Inductive NDArray (V : Type) : Type :=
| Scal (v : V)
| Arr (items : list (NDArray V)).

Record Tensor (V : Type) : Type := mkTensor {
  t_dtype : Dtype;
  t_device : Device;
  t_data : NDArray V
}.

Fixpoint nd_map {V W : Type} (f : V -> W) (a : NDArray V) : NDArray W :=
  match a with
  | Scal v => Scal (f v)
  | Arr items => Arr (map (nd_map f) items)
  end.

(** The shape read off the leading element of every dimension. *)
Fixpoint nd_shape {V : Type} (a : NDArray V) : list nat :=
  match a with
  | Scal _ => []
  | Arr items =>
      length items :: match items with
                      | [] => []
                      | x :: _ => nd_shape x
                      end
  end.

Definition shape {V : Type} (t : Tensor V) : list nat := nd_shape (t_data t).

Fixpoint nd_full {V : Type} (v : V) (dims : list nat) : NDArray V :=
  match dims with
  | [] => Scal v
  | d :: ds => Arr (repeat (nd_full v ds) d)
  end.

(** [t[:, 1:]]: along the second dimension, drop the entry at index 0.  A
    tensor with fewer than two dimensions raises [IndexError]. *)
Definition drop_first_row {V : Type} (row : NDArray V) : result (NDArray V) :=
  match row with
  | Scal _ => Err IndexError
  | Arr tokens => Ok (Arr (skipn 1 tokens))
  end.

Fixpoint collect {A : Type} (rs : list (result A)) : result (list A) :=
  match rs with
  | [] => Ok []
  | r :: rest =>
      rbind r (fun a => rbind (collect rest) (fun l => Ok (a :: l)))
  end.

Definition nd_slice_dim1_from1 {V : Type} (a : NDArray V) : result (NDArray V) :=
  match a with
  | Scal _ => Err IndexError
  | Arr rows => rmap (@Arr V) (collect (map drop_first_row rows))
  end.

Definition slice_dim1_from1 {V : Type} (t : Tensor V) : result (Tensor V) :=
  rmap (mkTensor (t_dtype t) (t_device t)) (nd_slice_dim1_from1 (t_data t)).

(** [t.unsqueeze(0)] *)
Definition unsqueeze0 {V : Type} (t : Tensor V) : Tensor V :=
  mkTensor (t_dtype t) (t_device t) (Arr [t_data t]).

(** [t.to(device=..., dtype=...)] and [t.to(dtype)]: the payload is converted
    scalar by scalar by the runtime's conversion [cast]. *)
Definition tensor_to_dtype {V : Type} (cast : Dtype -> V -> V)
    (dt : Dtype) (t : Tensor V) : Tensor V :=
  mkTensor dt (t_device t) (nd_map (cast dt) (t_data t)).

Definition tensor_to_device {V : Type} (dev : Device) (t : Tensor V) : Tensor V :=
  mkTensor (t_dtype t) dev (t_data t).

Definition tensor_to {V : Type} (cast : Dtype -> V -> V)
    (dev : Device) (dt : Dtype) (t : Tensor V) : Tensor V :=
  tensor_to_device dev (tensor_to_dtype cast dt t).

(** [torch.zeros(d1, ..., dn, device=..., dtype=...)]; a negative dimension raises
    [RuntimeError].  Sizes are taken to be allocatable: what [torch.zeros]
    does on a size beyond the allocator or the 64-bit range is not
    modelled. *)
Definition torch_zeros {V : Type} (zero : V) (dims : list Z)
    (dev : Device) (dt : Dtype) : result (Tensor V) :=
  if existsb (fun d => d <? 0) dims then Err RuntimeError
  else Ok (mkTensor dt dev (nd_full zero (map Z.to_nat dims))).

(** [torch.tensor(rows)] on a nested list of Python integers: a 2-D int64
    tensor on the CPU. *)
Definition torch_tensor_int (rows : list (list Z)) : Tensor Z :=
  mkTensor Int64 Cpu (Arr (map (fun row => Arr (map (@Scal Z) row)) rows)).

(** ** The pretrained-model runtime *)

(** The attributes of a model configuration that the towers read. *)
Record Config : Type := mkConfig {
  c_hidden_size : Z;
  c_image_size : Z;
  c_patch_size : Z
}.

Record Processor : Type := mkProcessor {
  proc_source : string
}.

(** A loaded model: where its weights came from, and the bookkeeping the
    towers read or set. *)
Record Model : Type := mkModel {
  m_source : string;
  m_dtype : Dtype;
  m_device : Device;
  m_config : Config;
  m_requires_grad : bool
}.

(** [model.to(dtype)] *)
Definition model_to (dt : Dtype) (m : Model) : Model :=
  mkModel (m_source m) dt (m_device m) (m_config m) (m_requires_grad m).

(** [model.requires_grad_(flag)] *)
Definition requires_grad_ (flag : bool) (m : Model) : Model :=
  mkModel (m_source m) (m_dtype m) (m_device m) (m_config m) flag.

(** The output of a vision-model call made with [output_hidden_states=True]. *)
Record ForwardOut (F : Type) : Type := mkForwardOut {
  hidden_states : list (Tensor F)
}.

(** The two shapes of input [forward] is written for ([type(images) is list]
    or not). *)
Inductive Images (F : Type) : Type :=
| Batched (t : Tensor F)
| ImageList (items : list (Tensor F)).

(** The keyword arguments of [generate]. *)
Record GenerateArgs (F : Type) : Type := mkGenerateArgs {
  input_ids : Tensor Z;
  pixel_values : Images F;
  max_new_tokens : Z;
  do_sample : bool;
  num_beams : Z
}.

(** What [generate] of the sequence model returns: the generated ids, the
    image feature and the encoder's last hidden state. *)
Record GenerateOut (F : Type) : Type := mkGenerateOut {
  generated_ids : Tensor Z;
  image_feature : Tensor F;
  encoder_last_hidden_state : Tensor F
}.

(** A call into the runtime returns, or fails with an error of the runtime's
    own, which the caller sees as [LibraryError]. *)
Inductive outcome (A : Type) : Type :=
| Returned (a : A)
| Failed (code : nat).
Arguments Failed {A} code.

Definition from_library {A : Type} (o : outcome A) : result A :=
  match o with
  | Returned a => Ok a
  | Failed code => Err (LibraryError code)
  end.

(** The functions of the pretrained-model library that the module calls, over
    scalars of type [F]. *)
Record Library (F : Type) : Type := mkLibrary {
  zero : F;
  cast : Dtype -> F -> F;
  CLIPVisionConfig_from_pretrained : string -> outcome Config;
  CLIPImageProcessor_from_pretrained : string -> outcome Processor;
  CLIPVisionModel_from_pretrained : string -> option string -> outcome Model;
  AutoProcessor_from_pretrained : string -> bool -> outcome Processor;
  AutoModelForCausalLM_from_pretrained : string -> bool -> outcome Model;
  vision_model_call : Model -> Tensor F -> bool -> outcome (ForwardOut F);
  generate : Model -> GenerateArgs F -> outcome (GenerateOut F)
}.

(** What the outside world can observe of a run, in order. *)
Inductive Event (F : Type) : Type :=
| Printed (line : string)
| LoadCLIPConfig (name : string)
| LoadCLIPProcessor (name : string)
| LoadCLIPModel (name : string) (device_map : option string)
| LoadAutoProcessor (name : string) (trust_remote_code : bool)
| LoadAutoModel (name : string) (trust_remote_code : bool)
| CallVisionModel (m : Model) (x : Tensor F) (output_hidden_states : bool)
| CallGenerate (m : Model) (args : GenerateArgs F).
Arguments Printed {F} line.
Arguments LoadCLIPConfig {F} name.
Arguments LoadCLIPProcessor {F} name.
Arguments LoadCLIPModel {F} name device_map.
Arguments LoadAutoProcessor {F} name trust_remote_code.
Arguments LoadAutoModel {F} name trust_remote_code.

Definition Trace (F : Type) : Type := list (Event F).

(** A loader event is a call of one of the [from_pretrained] functions. *)
Definition is_load {F : Type} (ev : Event F) : bool :=
  match ev with
  | LoadCLIPConfig _ | LoadCLIPProcessor _ | LoadCLIPModel _ _
  | LoadAutoProcessor _ _ | LoadAutoModel _ _ => true
  | _ => false
  end.

(** A weight-loading event: a call of a model's [from_pretrained]. *)
Definition is_model_load {F : Type} (ev : Event F) : bool :=
  match ev with
  | LoadCLIPModel _ _ | LoadAutoModel _ _ => true
  | _ => false
  end.

Definition load_count {F : Type} (tr : Trace F) : nat :=
  List.length (filter is_load tr).

Definition model_load_count {F : Type} (tr : Trace F) : nat :=
  List.length (filter is_model_load tr).

Definition printed_lines {F : Type} (tr : Trace F) : list string :=
  flat_map (fun ev => match ev with Printed l => [l] | _ => [] end) tr.

(** The values [forward] hands back to Python callers. *)
Inductive PyVal (F : Type) : Type :=
| VTensor (t : Tensor F)
| VList (items : list (PyVal F))
| VTuple (items : list (PyVal F)).

(** The constructor's [args]: [mm_vision_select_layer] is required, the
    other two attributes are read with [getattr] and a default. *)
Record Args : Type := mkArgs {
  mm_vision_select_layer : Z;
  mm_vision_select_feature : option string;
  unfreeze_mm_vision_tower : option bool
}.

Definition getattr_default {A : Type} (slot : option A) (default : A) : A :=
  match slot with
  | Some a => a
  | None => default
  end.

(** ** Objects and the trace

    A method runs on a heap made of the object [self] and the trace of
    observable events so far. *)
Definition Heap (T F : Type) : Type := (T * Trace F)%type.

Definition emit {T F : Type} (ev : Event F) : M (Heap T F) unit :=
  modify (fun h => (fst h, snd h ++ [ev])).

(** A call into the runtime: it is observed, then returns or raises. *)
Definition call {T F A : Type} (ev : Event F) (o : outcome A) : M (Heap T F) A :=
  (emit ev ;;; lift (from_library o))%monad.

Definition print {T F : Type} (line : string) : M (Heap T F) unit :=
  emit (Printed line).

Definition self_get {T F A : Type} (f : T -> A) : M (Heap T F) A :=
  gets (fun h => f (fst h)).

(** Reading a property or attribute of [self] that may raise. *)
Definition self_read {T F A : Type} (f : T -> result A) : M (Heap T F) A :=
  fun h => (f (fst h), h).

Definition self_set {T F : Type} (f : T -> T) : M (Heap T F) unit :=
  modify (fun h => (f (fst h), snd h)).

(** A constructor runs its body on the fresh object and hands the object
    back unless the body raised. *)
Definition construct {T F : Type} (fresh : T) (body : M (Heap T F) unit)
    (tr : Trace F) : result T * Trace F :=
  match body (fresh, tr) with
  | (Ok _, (obj, tr')) => (Ok obj, tr')
  | (Err e, (_, tr')) => (Err e, tr')
  end.

(** ['{} is already loaded, `load_model` called again, skipping.'.format(name)] *)
Definition already_loaded_notice (name : string) : string :=
  (name ++ " is already loaded, `load_model` called again, skipping.")%string.

(** [f'Unexpected select feature: {value}'] *)
Definition unexpected_select_feature (value : string) : string :=
  ("Unexpected select feature: " ++ value)%string.

(** ** [class CLIPVisionTower] *)
Module CLIPVisionTower.

(** The attributes of the object; [None] is an attribute not assigned
    yet. *)
Record Tower : Type := mkTower {
  is_loaded : bool;
  vision_tower_name : string;
  select_layer : Z;
  select_feature : string;
  image_processor : option Processor;
  vision_tower : option Model;
  cfg_only : option Config
}.

Definition set_is_loaded (b : bool) (s : Tower) : Tower :=
  mkTower b (vision_tower_name s) (select_layer s) (select_feature s)
          (image_processor s) (vision_tower s) (cfg_only s).

Definition set_image_processor (p : Processor) (s : Tower) : Tower :=
  mkTower (is_loaded s) (vision_tower_name s) (select_layer s)
          (select_feature s) (Some p) (vision_tower s) (cfg_only s).

Definition set_vision_tower (m : Model) (s : Tower) : Tower :=
  mkTower (is_loaded s) (vision_tower_name s) (select_layer s)
          (select_feature s) (image_processor s) (Some m) (cfg_only s).

Definition set_cfg_only (c : Config) (s : Tower) : Tower :=
  mkTower (is_loaded s) (vision_tower_name s) (select_layer s)
          (select_feature s) (image_processor s) (vision_tower s) (Some c).

(** *** Properties (they only read [self]) *)

Definition dtype (s : Tower) : result Dtype :=
  property "dtype" (rmap m_dtype (getattr "vision_tower" (vision_tower s))).

Definition device (s : Tower) : result Device :=
  property "device" (rmap m_device (getattr "vision_tower" (vision_tower s))).

(** [config]: the model's config on a loaded tower, the cached one otherwise.
    Where the attribute it reads is unset, a state no constructor or method
    leads to, the error is kept under the name of that attribute. *)
Definition config (s : Tower) : result Config :=
  if is_loaded s then rmap m_config (getattr "vision_tower" (vision_tower s))
  else getattr "cfg_only" (cfg_only s).

Definition hidden_size (s : Tower) : result Z :=
  property "hidden_size" (rmap c_hidden_size (config s)).

Definition num_patches_per_side (s : Tower) : result Z :=
  property "num_patches_per_side"
    (c1 <- config s ;;
     c2 <- config s ;;
     floordiv (c_image_size c1) (c_patch_size c2))%result.

Definition num_patches (s : Tower) : result Z :=
  property "num_patches"
    (c1 <- config s ;;
     c2 <- config s ;;
     q <- floordiv (c_image_size c1) (c_patch_size c2) ;;
     Ok (q ^ 2))%result.

(** Loaded towers hold a model, unloaded ones hold a cached config. *)
Definition invariant (s : Tower) : Prop :=
  (is_loaded s = true /\ exists m, vision_tower s = Some m) \/
  (is_loaded s = false /\ exists c, cfg_only s = Some c).

Section WithLibrary.
Variable F : Type.
Variable L : Library F.

Definition dummy_feature (s : Tower) : result (Tensor F) :=
  property "dummy_feature"
    (h <- hidden_size s ;;
     dev <- device s ;;
     dt <- dtype s ;;
     torch_zeros (zero L) [1; h] dev dt)%result.

(** *** [load_model] *)
Definition load_model (device_map : option string)
  : M (Heap Tower F) unit :=
  (loaded <- self_get is_loaded ;;
   if loaded then
     name <- self_get vision_tower_name ;;
     print (already_loaded_notice name)
   else
     name <- self_get vision_tower_name ;;
     p <- call (LoadCLIPProcessor name)
               (CLIPImageProcessor_from_pretrained L name) ;;
     self_set (set_image_processor p) ;;;
     name <- self_get vision_tower_name ;;
     m <- call (LoadCLIPModel name device_map)
               (CLIPVisionModel_from_pretrained L name device_map) ;;
     self_set (set_vision_tower m) ;;;
     m <- self_read (fun s => getattr "vision_tower" (vision_tower s)) ;;
     self_set (set_vision_tower (requires_grad_ false m)) ;;;
     self_set (set_is_loaded true))%monad.

(** *** [__init__] *)
Definition fresh (vision_tower : string) (args : Args) : Tower :=
  mkTower false vision_tower (mm_vision_select_layer args)
          (getattr_default (mm_vision_select_feature args) "patch")
          None None None.

Definition init_body (args : Args) (delay_load : bool)
  : M (Heap Tower F) unit :=
  (if negb delay_load then load_model None
   else if getattr_default (unfreeze_mm_vision_tower args) false
        then load_model None
        else
          name <- self_get vision_tower_name ;;
          c <- call (LoadCLIPConfig name)
                    (CLIPVisionConfig_from_pretrained L name) ;;
          self_set (set_cfg_only c))%monad.

Definition init (vision_tower : string) (args : Args) (delay_load : bool)
  : Trace F -> result Tower * Trace F :=
  construct (fresh vision_tower args) (init_body args delay_load).

(** *** [feature_select] *)
Definition feature_select (s : Tower) (image_forward_outs : ForwardOut F)
  : result (Tensor F) :=
  (image_features <- py_index (hidden_states image_forward_outs)
                              (select_layer s) ;;
   if String.eqb (select_feature s) "patch" then
     slice_dim1_from1 image_features
   else if String.eqb (select_feature s) "cls_patch" then
     Ok image_features
   else
     Err (ValueError (unexpected_select_feature (select_feature s))))%result.

(** *** [forward] *)

(** One model call of [forward]: [images.to(device=self.device,
    dtype=self.dtype)], optionally [.unsqueeze(0)], through the model with
    [output_hidden_states=True], then [feature_select] and [.to] the
    dtype the input had. *)
Definition encode (unsqueeze : bool) (image : Tensor F)
  : M (Heap Tower F) (Tensor F) :=
  (tower <- self_read (fun s => getattr "vision_tower" (vision_tower s)) ;;
   dev <- self_read device ;;
   dt <- self_read dtype ;;
   let moved := tensor_to (cast L) dev dt image in
   let x := if unsqueeze then unsqueeze0 moved else moved in
   image_forward_out <- call (CallVisionModel tower x true)
                             (vision_model_call L tower x true) ;;
   selected <- self_read (fun s => feature_select s image_forward_out) ;;
   ret (tensor_to_dtype (cast L) (t_dtype image) selected))%monad.

(** The [for image in images] loop, appending to [image_features]. *)
Fixpoint forward_loop (images : list (Tensor F))
    (image_features : list (Tensor F))
  : M (Heap Tower F) (list (Tensor F)) :=
  match images with
  | [] => ret image_features
  | image :: rest =>
      (image_feature <- encode true image ;;
       forward_loop rest (image_features ++ [image_feature]))%monad
  end.

(** [return image_features, image_features]: a 2-tuple holding the same
    object twice. *)
Definition forward (images : Images F) : M (Heap Tower F) (PyVal F) :=
  match images with
  | ImageList items =>
      (image_features <- forward_loop items [] ;;
       let v := VList (map (@VTensor F) image_features) in
       ret (VTuple [v; v]))%monad
  | Batched t =>
      (image_features <- encode false t ;;
       let v := VTensor image_features in
       ret (VTuple [v; v]))%monad
  end.

(** The objects a caller can hold: what [__init__] returned, and what a
    method call on such an object leaves behind, whether the call
    returned or raised. *)
Inductive reachable : Tower -> Prop :=
| reach_init : forall name args delay_load tr s tr',
    init name args delay_load tr = (Ok s, tr') ->
    reachable s
| reach_load_model : forall s device_map tr r s' tr',
    reachable s ->
    load_model device_map (s, tr) = (r, (s', tr')) ->
    reachable s'
| reach_forward : forall s images tr r s' tr',
    reachable s ->
    forward images (s, tr) = (r, (s', tr')) ->
    reachable s'.

End WithLibrary.
End CLIPVisionTower.

(** ** [class FlorenceVisionTower] *)
Module FlorenceVisionTower.

(** The attributes of the object.  [cfg_only] is read by [config] but no
    method of the class assigns it. *)
Record Tower : Type := mkTower {
  is_loaded : bool;
  vision_tower_name : string;
  image_processor : option Processor;
  vision_tower : option Model;
  cfg_only : option Config
}.

Definition set_is_loaded (b : bool) (s : Tower) : Tower :=
  mkTower b (vision_tower_name s) (image_processor s) (vision_tower s)
          (cfg_only s).

Definition set_image_processor (p : Processor) (s : Tower) : Tower :=
  mkTower (is_loaded s) (vision_tower_name s) (Some p) (vision_tower s)
          (cfg_only s).

Definition set_vision_tower (m : Model) (s : Tower) : Tower :=
  mkTower (is_loaded s) (vision_tower_name s) (image_processor s) (Some m)
          (cfg_only s).

(** *** Properties *)

Definition dtype (s : Tower) : result Dtype :=
  property "dtype" (rmap m_dtype (getattr "vision_tower" (vision_tower s))).

Definition device (s : Tower) : result Device :=
  property "device" (rmap m_device (getattr "vision_tower" (vision_tower s))).

(** [config]: the model's config on a loaded tower, the cached one otherwise.
    Where the attribute it reads is unset, a state no constructor or method
    leads to, the error is kept under the name of that attribute. *)
Definition config (s : Tower) : result Config :=
  if is_loaded s then rmap m_config (getattr "vision_tower" (vision_tower s))
  else getattr "cfg_only" (cfg_only s).

Definition hidden_size (s : Tower) : result Z :=
  property "hidden_size" (rmap c_hidden_size (config s)).

Definition num_patches_per_side (s : Tower) : result Z :=
  property "num_patches_per_side"
    (c1 <- config s ;;
     c2 <- config s ;;
     floordiv (c_image_size c1) (c_patch_size c2))%result.

Definition num_patches (s : Tower) : result Z :=
  property "num_patches"
    (c1 <- config s ;;
     c2 <- config s ;;
     q <- floordiv (c_image_size c1) (c_patch_size c2) ;;
     Ok (q ^ 2))%result.

(** The rows of the hard-coded [task_ids] matrix of [forward]. *)
Definition task_id_rows : list (list Z) :=
  [ [0; 47066; 21700; 11; 4617; 99; 16; 2343; 11; 5; 2274; 4; 2; 1];
    [0; 2264; 16; 5; 2788; 11; 5; 2274; 116; 2; 1; 1; 1; 1];
    [0; 574; 22486; 5; 8720; 11; 5; 2274; 6; 19; 49; 24173; 4; 2] ].

(** Every tower is loaded, holds a bfloat16 model, and has no cached
    config. *)
Definition invariant (s : Tower) : Prop :=
  is_loaded s = true /\ cfg_only s = None /\
  exists m, vision_tower s = Some m /\ m_dtype m = BFloat16.

Section WithLibrary.
Variable F : Type.
Variable L : Library F.

Definition dummy_feature (s : Tower) : result (Tensor F) :=
  property "dummy_feature"
    (h <- hidden_size s ;;
     dev <- device s ;;
     dt <- dtype s ;;
     torch_zeros (zero L) [1; h] dev dt)%result.

(** *** [load_model]; its [device_map] argument is not used. *)
Definition load_model (device_map : option string)
  : M (Heap Tower F) unit :=
  (loaded <- self_get is_loaded ;;
   if loaded then
     name <- self_get vision_tower_name ;;
     print (already_loaded_notice name)
   else
     name <- self_get vision_tower_name ;;
     p <- call (LoadAutoProcessor name true)
               (AutoProcessor_from_pretrained L name true) ;;
     self_set (set_image_processor p) ;;;
     name <- self_get vision_tower_name ;;
     m <- call (LoadAutoModel name true)
               (AutoModelForCausalLM_from_pretrained L name true) ;;
     self_set (set_vision_tower (model_to BFloat16 m)) ;;;
     m <- self_read (fun s => getattr "vision_tower" (vision_tower s)) ;;
     self_set (set_vision_tower (requires_grad_ false m)) ;;;
     self_set (set_is_loaded true))%monad.

(** *** [__init__] *)
Definition fresh (vision_tower : string) : Tower :=
  mkTower false vision_tower None None None.

Definition init_body (args : Args) (delay_load : bool)
  : M (Heap Tower F) unit :=
  if negb delay_load then load_model None
  else if getattr_default (unfreeze_mm_vision_tower args) false
       then load_model None
       else load_model None.

Definition init (vision_tower : string) (args : Args) (delay_load : bool)
  : Trace F -> result Tower * Trace F :=
  construct (fresh vision_tower) (init_body args delay_load).

(** *** [forward] *)
Definition forward (images : Images F) : M (Heap Tower F) (PyVal F) :=
  (dev <- self_read device ;;
   let task_ids := tensor_to_device dev (torch_tensor_int task_id_rows) in
   tower <- self_read (fun s => getattr "vision_tower" (vision_tower s)) ;;
   let args := mkGenerateArgs task_ids images 1 false 1 in
   out <- call (CallGenerate tower args) (generate L tower args) ;;
   ret (VTuple [VTensor (image_feature out);
                VTensor (encoder_last_hidden_state out)]))%monad.

(** The objects a caller can hold: what [__init__] returned, and what a
    method call on such an object leaves behind, whether the call
    returned or raised. *)
Inductive reachable : Tower -> Prop :=
| reach_init : forall name args delay_load tr s tr',
    init name args delay_load tr = (Ok s, tr') ->
    reachable s
| reach_load_model : forall s device_map tr r s' tr',
    reachable s ->
    load_model device_map (s, tr) = (r, (s', tr')) ->
    reachable s'
| reach_forward : forall s images tr r s' tr',
    reachable s ->
    forward images (s, tr) = (r, (s', tr')) ->
    reachable s'.

End WithLibrary.
End FlorenceVisionTower.

(** ** Reading the claims about [forward]'s output *)

Definition is_tensor {F : Type} (v : PyVal F) : bool :=
  match v with
  | VTensor _ => true
  | _ => false
  end.

(** The output is one tensor for a batched input, and a list of tensors, one
    per image, for a list input. *)
Definition plain_output {F : Type} (images : Images F) (v : PyVal F) : bool :=
  match images, v with
  | Batched _, VTensor _ => true
  | ImageList items, VList fs =>
      Nat.eqb (List.length fs) (List.length items) && forallb is_tensor fs
  | _, _ => false
  end.

(** The output is a 2-tuple holding twice the feature tensor (batched
    input) or twice the list [fs] of feature tensors (list input). *)
Definition paired_output {F : Type} (images : Images F) (v : PyVal F)
    (fs : list (Tensor F)) : Prop :=
  match images with
  | Batched _ =>
      exists f, fs = [f] /\ v = VTuple [VTensor f; VTensor f]
  | ImageList items =>
      List.length fs = List.length items /\
      v = VTuple [VList (map (@VTensor F) fs); VList (map (@VTensor F) fs)]
  end.

(** The image tensors of an input, in order. *)
Definition image_tensors {F : Type} (images : Images F) : list (Tensor F) :=
  match images with
  | Batched t => [t]
  | ImageList items => items
  end.

Definition same_dtype {F : Type} (image feature : Tensor F) : Prop :=
  t_dtype feature = t_dtype image.

(** A recorded vision-model call was made on an input of the model's own
    dtype. *)
Definition at_model_dtype {F : Type} (ev : Event F) : Prop :=
  match ev with
  | CallVisionModel m x _ => t_dtype x = m_dtype m
  | _ => True
  end.

(** [t'] is [t] with the token at index 0 of every sequence removed: same
    dtype and device, and row by row the tail of the row's tokens. *)
Definition drops_first_token {F : Type} (t t' : Tensor F) : Prop :=
  t_dtype t' = t_dtype t /\
  t_device t' = t_device t /\
  exists rows rows',
    t_data t = Arr rows /\
    t_data t' = Arr rows' /\
    Forall2 (fun r r' => exists tokens, r = Arr tokens /\ r' = Arr (tl tokens))
            rows rows'.

(** The tensor has a batch and a sequence dimension. *)
Definition has_sequence_dim {F : Type} (t : Tensor F) : bool :=
  match t_data t with
  | Scal _ => false
  | Arr rows =>
      forallb (fun r => match r with Arr _ => true | Scal _ => false end) rows
  end.

(** The tensor the vision model sees first: the batch itself, or the first
    image of the list with a batch dimension added. *)
Definition first_model_input {F : Type} (L : Library F) (m : Model)
    (images : Images F) : option (Tensor F) :=
  match images with
  | Batched t => Some (tensor_to (cast L) (m_device m) (m_dtype m) t)
  | ImageList [] => None
  | ImageList (image :: _) =>
      Some (unsqueeze0 (tensor_to (cast L) (m_device m) (m_dtype m) image))
  end.

(** [type(images) is list] *)
Definition is_list {F : Type} (images : Images F) : bool :=
  match images with
  | Batched _ => false
  | ImageList _ => true
  end.

(** What [CLIPVisionTower.forward] hands to the model for one image tensor:
    [image.to(device=self.device, dtype=self.dtype)], followed by
    [.unsqueeze(0)] for an image of a list. *)
Definition model_input {F : Type} (L : Library F) (m : Model)
    (unsqueeze : bool) (image : Tensor F) : Tensor F :=
  let moved := tensor_to (cast L) (m_device m) (m_dtype m) image in
  if unsqueeze then unsqueeze0 moved else moved.

(** [feature] is the feature of [image]: the tower holds a model, the model
    called on the image (moved to the model's device and dtype) with
    [output_hidden_states=True] returned, [feature_select] on its output
    returned, and [feature] is that selection converted to the dtype of
    [image]. *)
Definition computed_from {F : Type} (L : Library F)
    (s : CLIPVisionTower.Tower) (unsqueeze : bool)
    (image feature : Tensor F) : Prop :=
  exists m out selected,
    CLIPVisionTower.vision_tower s = Some m /\
    vision_model_call L m (model_input L m unsqueeze image) true
      = Returned out /\
    CLIPVisionTower.feature_select s out = Ok selected /\
    feature = tensor_to_dtype (cast L) (t_dtype image) selected.

(** [ev] records the inference run for [image]: a call of the tower's model,
    with [output_hidden_states=True], on an input that has the model's
    dtype. *)
Definition inference_call {F : Type} (L : Library F)
    (s : CLIPVisionTower.Tower) (unsqueeze : bool)
    (image : Tensor F) (ev : Event F) : Prop :=
  exists m,
    CLIPVisionTower.vision_tower s = Some m /\
    ev = CallVisionModel m (model_input L m unsqueeze image) true /\
    t_dtype (model_input L m unsqueeze image) = m_dtype m.

(** The errors [CLIPVisionTower.forward] can raise under a known mode: the
    [AttributeError] of a tower without a model, the [IndexError] of the
    layer index or of the slice, or the failure of a model call, passed on
    as it is. *)
Definition own_or_model_failure {F : Type} (L : Library F)
    (s : CLIPVisionTower.Tower) (e : exn) : Prop :=
  e = AttributeError "vision_tower" \/
  e = IndexError \/
  exists m x code,
    CLIPVisionTower.vision_tower s = Some m /\
    vision_model_call L m x true = Failed code /\
    e = LibraryError code.

(** ** Reading the claims shared by the two towers

    Both classes have the same accessors; a statement about "every tower" is
    written once over the accessors and instantiated at each class. *)

(** [config] reads the cached config while [is_loaded] is false and the
    model's config once it is true. *)
Definition config_by_load_state {T : Type} (is_loaded : T -> bool)
    (vision_tower : T -> option Model) (cfg_only : T -> option Config)
    (config : T -> result Config) : Prop :=
  forall s,
    (is_loaded s = false -> config s = getattr "cfg_only" (cfg_only s)) /\
    (is_loaded s = true ->
     config s = rmap m_config (getattr "vision_tower" (vision_tower s))).

(** On every object a caller can hold, [config] returns a config: the cached
    one before loading, the model's after. *)
Definition config_always_set {T : Type} (reachable : T -> Prop)
    (is_loaded : T -> bool) (vision_tower : T -> option Model)
    (cfg_only : T -> option Config) (config : T -> result Config) : Prop :=
  forall s, reachable s ->
    exists c, config s = Ok c /\
      (is_loaded s = false -> cfg_only s = Some c) /\
      (is_loaded s = true ->
       exists m, vision_tower s = Some m /\ m_config m = c).

(** [load_model] on a loaded tower returns normally, leaves the object as it
    is, and adds to the trace the printed notice and nothing else. *)
Definition reload_is_noop {T F : Type} (is_loaded : T -> bool)
    (vision_tower_name : T -> string)
    (load_model : option string -> M (Heap T F) unit) : Prop :=
  forall s device_map tr,
    is_loaded s = true ->
    load_model device_map (s, tr) =
      (Ok tt, (s, tr ++ [Printed (already_loaded_notice (vision_tower_name s))])).

(** After a [load_model] that returned, the tower is loaded and a second
    [load_model] changes neither the object nor the number of loader calls;
    it prints the notice. *)
Definition second_load_is_noop {T F : Type} (is_loaded : T -> bool)
    (vision_tower_name : T -> string)
    (load_model : option string -> M (Heap T F) unit) : Prop :=
  forall s device_map device_map' tr s' tr',
    load_model device_map (s, tr) = (Ok tt, (s', tr')) ->
    is_loaded s' = true /\
    exists tr'',
      load_model device_map' (s', tr') = (Ok tt, (s', tr'')) /\
      load_count tr'' = load_count tr' /\
      printed_lines tr'' =
        printed_lines tr' ++ [already_loaded_notice (vision_tower_name s')].

(** A tower built with immediate loading has called the model loader once,
    and still once after any further [load_model]. *)
Definition loads_exactly_once {T F : Type}
    (init : string -> Args -> bool -> Trace F -> result T * Trace F)
    (load_model : option string -> M (Heap T F) unit) : Prop :=
  forall name args s tr',
    init name args false [] = (Ok s, tr') ->
    model_load_count tr' = 1%nat /\
    forall device_map,
      model_load_count (snd (snd (load_model device_map (s, tr')))) = 1%nat.

(** The patch geometry of a loaded tower. *)
Definition patch_geometry {T : Type} (is_loaded : T -> bool)
    (vision_tower : T -> option Model)
    (num_patches_per_side num_patches : T -> result Z) : Prop :=
  forall s m,
    is_loaded s = true ->
    vision_tower s = Some m ->
    let image_size := c_image_size (m_config m) in
    let patch_size := c_patch_size (m_config m) in
    num_patches_per_side s = floordiv image_size patch_size /\
    num_patches s = rmap (fun side => side ^ 2) (num_patches_per_side s) /\
    (patch_size <> 0 ->
     num_patches_per_side s = Ok (image_size / patch_size) /\
     num_patches s = Ok ((image_size / patch_size) ^ 2)).

(** [dummy_feature] of a loaded tower: zeros of shape [[1, hidden_size]] with
    the model's dtype and device. *)
Definition dummy_feature_is_zero_row {T F : Type} (zero : F)
    (is_loaded : T -> bool) (vision_tower : T -> option Model)
    (dummy_feature : T -> result (Tensor F)) : Prop :=
  forall s m,
    is_loaded s = true ->
    vision_tower s = Some m ->
    0 <= c_hidden_size (m_config m) ->
    exists t,
      dummy_feature s = Ok t /\
      map Z.of_nat (shape t) = [1; c_hidden_size (m_config m)] /\
      t_dtype t = m_dtype m /\
      t_device t = m_device m /\
      t_data t = nd_full zero [1%nat; Z.to_nat (c_hidden_size (m_config m))].

(** ** A small runtime to run the towers on

    Scalars are integers, conversion between dtypes keeps them, loading the
    empty name fails, and the vision model answers with three hidden states
    of three tokens each per batch row. *)

Definition demo_config : Config := mkConfig 1024 336 14.

Definition demo_load {A : Type} (name : string) (a : A) : outcome A :=
  if String.eqb name "" then Failed 404 else Returned a.

Definition demo_hidden (m : Model) (x : Tensor Z) (layer : Z) : Tensor Z :=
  let batch := match t_data x with
               | Arr rows => List.length rows
               | Scal _ => 1%nat
               end in
  mkTensor (m_dtype m) (m_device m)
    (Arr (repeat (Arr [Arr [Scal layer; Scal 0];
                       Arr [Scal layer; Scal 1];
                       Arr [Scal layer; Scal 2]]) batch)).

Definition demo_lib : Library Z :=
  mkLibrary 0 (fun _ v => v)
    (fun name => demo_load name demo_config)
    (fun name => demo_load name (mkProcessor name))
    (fun name _ => demo_load name (mkModel name Float16 (Cuda 0) demo_config true))
    (fun name _ => demo_load name (mkProcessor name))
    (fun name _ => demo_load name (mkModel name Float32 (Cuda 0) demo_config true))
    (fun m x _ =>
       Returned (mkForwardOut [demo_hidden m x 0; demo_hidden m x 1;
                               demo_hidden m x 2]))
    (fun m args =>
       Returned (mkGenerateOut
                   (tensor_to_device (m_device m) (torch_tensor_int [[2]; [2]; [2]]))
                   (demo_hidden m (input_ids args) 7)
                   (demo_hidden m (input_ids args) 8))).

Definition demo_args : Args := mkArgs (-2) None None.

(** One single-channel 2x2 image, and a batch of two of them. *)
Definition demo_image : Tensor Z :=
  mkTensor Float32 Cpu (Arr [Arr [Arr [Scal 1; Scal 2]; Arr [Scal 3; Scal 4]]]).

Definition demo_batch : Tensor Z :=
  mkTensor Float32 Cpu (Arr [t_data demo_image; t_data demo_image]).

Definition demo_clip_model : Model :=
  mkModel "clip" Float16 (Cuda 0) demo_config false.

Definition demo_clip : CLIPVisionTower.Tower :=
  CLIPVisionTower.mkTower true "clip" (-2) "patch"
    (Some (mkProcessor "clip")) (Some demo_clip_model) None.

(** A tower configured with a feature-selection mode nobody implements. *)
Definition demo_clip_odd : CLIPVisionTower.Tower :=
  CLIPVisionTower.mkTower true "clip" (-2) "cls"
    (Some (mkProcessor "clip")) (Some demo_clip_model) None.

(** A tower whose [select_layer] is beyond the three hidden states of the
    demo model. *)
Definition demo_clip_deep : CLIPVisionTower.Tower :=
  CLIPVisionTower.mkTower true "clip" 5 "patch"
    (Some (mkProcessor "clip")) (Some demo_clip_model) None.

Definition demo_clip_cls_patch : CLIPVisionTower.Tower :=
  CLIPVisionTower.mkTower true "clip" (-2) "cls_patch"
    (Some (mkProcessor "clip")) (Some demo_clip_model) None.

(** The same tower as constructed with [delay_load=True]: not loaded yet. *)
Definition demo_clip_delayed : CLIPVisionTower.Tower :=
  CLIPVisionTower.mkTower false "clip" (-2) "patch" None None
    (Some demo_config).

Definition demo_florence_model : Model :=
  mkModel "florence" BFloat16 (Cuda 0) demo_config false.

Definition demo_florence : FlorenceVisionTower.Tower :=
  FlorenceVisionTower.mkTower true "florence"
    (Some (mkProcessor "florence")) (Some demo_florence_model) None.

(** ** Reading further properties of the code *)

(** The vision-model call [CLIPVisionTower.forward] makes for one image of a
    list: the image moved to the model's device and dtype, with a batch
    dimension added, and [output_hidden_states=True]. *)
Definition model_call_of {F : Type} (L : Library F) (m : Model)
    (image : Tensor F) : Event F :=
  CallVisionModel m
    (unsqueeze0 (tensor_to (cast L) (m_device m) (m_dtype m) image)) true.

(** The number of tokens of every sequence of a tensor with a batch and a
    sequence dimension; [None] on a scalar and on a tensor with a scalar among
    its entries.  On [Arr []] it is [Some []], which tells nothing about the
    rank. *)
Definition token_counts {F : Type} (t : Tensor F) : option (list nat) :=
  match t_data t with
  | Scal _ => None
  | Arr rows =>
      fold_right
        (fun r acc =>
           match r, acc with
           | Arr tokens, Some counts => Some (List.length tokens :: counts)
           | _, _ => None
           end)
        (Some []) rows
  end.

(** The tower holds a frozen bfloat16 model. *)
Definition holds_frozen_bfloat16 (s : FlorenceVisionTower.Tower) : Prop :=
  exists m,
    FlorenceVisionTower.vision_tower s = Some m /\
    m_dtype m = BFloat16 /\
    m_requires_grad m = false.

(** A failed [load_model]: the error is the runtime's own, the tower was
    and stays unloaded, its model slot and cached config are untouched, at
    least one loader was called, and a retry calls a loader again. *)
Definition failed_load_keeps_unloaded {T F : Type} (is_loaded : T -> bool)
    (vision_tower : T -> option Model) (cfg_only : T -> option Config)
    (load_model : option string -> M (Heap T F) unit) : Prop :=
  forall s device_map tr e s' tr',
    load_model device_map (s, tr) = (Err e, (s', tr')) ->
    (exists code, e = LibraryError code) /\
    is_loaded s = false /\
    is_loaded s' = false /\
    vision_tower s' = vision_tower s /\
    cfg_only s' = cfg_only s /\
    (load_count tr < load_count tr')%nat /\
    forall device_map',
      (load_count tr' <
       load_count (snd (snd (load_model device_map' (s', tr')))))%nat.

(** No method call changes a loaded tower. *)
Definition loaded_is_final {T F : Type} (is_loaded : T -> bool)
    (load_model : option string -> M (Heap T F) unit)
    (forward : Images F -> M (Heap T F) (PyVal F)) : Prop :=
  forall s tr,
    is_loaded s = true ->
    (forall device_map, fst (snd (load_model device_map (s, tr))) = s) /\
    (forall images, fst (snd (forward images (s, tr))) = s).

(** With a positive patch size, the patches of one side fit in the image and
    one more would not; with patch size 0 both accessors raise
    [ZeroDivisionError]. *)
Definition side_brackets_image {T : Type} (config : T -> result Config)
    (num_patches_per_side num_patches : T -> result Z) : Prop :=
  forall s c,
    config s = Ok c ->
    (0 < c_patch_size c ->
     exists side,
       num_patches_per_side s = Ok side /\
       num_patches s = Ok (side ^ 2) /\
       side * c_patch_size c <= c_image_size c < (side + 1) * c_patch_size c) /\
    (c_patch_size c = 0 ->
     num_patches_per_side s = Err ZeroDivisionError /\
     num_patches s = Err ZeroDivisionError).


(** [is_loaded] tells whether a model is held: a loaded tower holds a model
    with gradients switched off, an unloaded one holds no model and has a
    cached config. *)
Definition clip_load_state_consistent (s : CLIPVisionTower.Tower) : Prop :=
  if CLIPVisionTower.is_loaded s
  then exists m, CLIPVisionTower.vision_tower s = Some m /\
                 m_requires_grad m = false
  else CLIPVisionTower.vision_tower s = None /\
       exists c, CLIPVisionTower.cfg_only s = Some c.

(** A second runtime, whose model loader fails. *)
Definition demo_lib_no_weights : Library Z :=
  mkLibrary 0 (fun _ v => v)
    (fun name => demo_load name demo_config)
    (fun name => demo_load name (mkProcessor name))
    (fun _ _ => Failed 507)
    (fun name _ => demo_load name (mkProcessor name))
    (fun _ _ => Failed 507)
    (vision_model_call demo_lib)
    (generate demo_lib).

(** A CLIP config whose image size is not a multiple of the patch size. *)
Definition demo_clip_uneven : CLIPVisionTower.Tower :=
  CLIPVisionTower.mkTower false "clip" (-2) "patch" None None
    (Some (mkConfig 768 225 14)).


(** * Properties *)

(** Unfolding the monad's plumbing. *)
Ltac run_monad :=
  unfold bind, ret, lift, gets, modify, self_get, self_read, self_set,
    call, print, emit in *;
  simpl in *.

Ltac pair_inv H := inversion H; subst; clear H.

(** ** Properties that do not raise [AttributeError] *)

Lemma property_floordiv (name : string) (a b : Z) :
  property name (floordiv a b) = floordiv a b.
Proof. unfold floordiv; destruct (b =? 0); reflexivity. Qed.

Lemma property_floordiv_then (B : Type) (name : string) (a b : Z)
    (f : Z -> B) :
  property name (rbind (floordiv a b) (fun q => Ok (f q))) =
    rmap f (floordiv a b).
Proof. unfold floordiv; destruct (b =? 0); reflexivity. Qed.

(** ** Tensors and indexing *)

Lemma collect_drop_first_rows (V : Type) (rows : list (NDArray V)) rows' :
  collect (map (@drop_first_row V) rows) = Ok rows' ->
  Forall2 (fun r r' => exists tokens, r = Arr tokens /\ r' = Arr (tl tokens))
          rows rows'.
Proof.
  revert rows'; induction rows as [|r rows IH]; intros rows' H; simpl in H.
  - inversion H; constructor.
  - destruct r as [v|tokens]; simpl in H; [discriminate|].
    destruct (collect (map (@drop_first_row V) rows)) as [l|e] eqn:E;
      simpl in H; [|discriminate].
    inversion H; subst; clear H.
    constructor; [|apply IH; reflexivity].
    exists tokens; split; [reflexivity|].
    destruct tokens; reflexivity.
Qed.

Lemma collect_drop_first_rows_total (V : Type) (rows : list (NDArray V)) :
  forallb (fun r => match r with Arr _ => true | Scal _ => false end) rows
    = true ->
  exists rows', collect (map (@drop_first_row V) rows) = Ok rows'.
Proof.
  induction rows as [|r rows IH]; simpl; intros H.
  - eexists; reflexivity.
  - apply andb_true_iff in H as [Hr Hrows].
    destruct r as [v|tokens]; [discriminate|].
    destruct (IH Hrows) as [rows' E]; rewrite E; simpl.
    eexists; reflexivity.
Qed.

Lemma slice_dim1_from1_drops (V : Type) (t t' : Tensor V) :
  slice_dim1_from1 t = Ok t' -> drops_first_token t t'.
Proof.
  unfold slice_dim1_from1, nd_slice_dim1_from1, rmap, rbind.
  destruct t as [dt dev data]; simpl.
  destruct data as [v|rows]; [discriminate|].
  destruct (collect (map (@drop_first_row V) rows)) as [rows'|e] eqn:E;
    [|discriminate].
  intros H; inversion H; subst; clear H.
  repeat split; simpl.
  exists rows, rows'; repeat split.
  now apply collect_drop_first_rows.
Qed.

Lemma slice_dim1_from1_total (V : Type) (t : Tensor V) :
  has_sequence_dim t = true -> exists t', slice_dim1_from1 t = Ok t'.
Proof.
  unfold has_sequence_dim, slice_dim1_from1, nd_slice_dim1_from1, rmap, rbind.
  destruct (t_data t) as [v|rows]; [discriminate|]; intros H.
  destruct (collect_drop_first_rows_total rows H) as [rows' E]; rewrite E.
  eexists; reflexivity.
Qed.

Lemma slice_dim1_from1_error (V : Type) (t : Tensor V) e :
  slice_dim1_from1 t = Err e -> e = IndexError.
Proof.
  unfold slice_dim1_from1, nd_slice_dim1_from1, rmap, rbind.
  destruct (t_data t) as [v|rows]; [congruence|].
  assert (G : forall rs e', collect (map (@drop_first_row V) rs) = Err e' ->
                            e' = IndexError).
  { induction rs as [|r rs IH]; simpl; intros e' H; [discriminate|].
    destruct r as [v|tokens]; simpl in H; [congruence|].
    destruct (collect (map (@drop_first_row V) rs)) eqn:E; simpl in H;
      [discriminate|].
    inversion H; subst; now apply IH. }
  destruct (collect (map (@drop_first_row V) rows)) eqn:E; [discriminate|].
  intros H; inversion H; subst; now apply (G rows).
Qed.

Lemma py_index_error (A : Type) (xs : list A) i e :
  py_index xs i = Err e -> e = IndexError.
Proof.
  unfold py_index.
  destruct (_ || _); [congruence|].
  destruct (nth_error _ _); congruence.
Qed.

(** ** The CLIP tower *)
Section CLIPFacts.
Import CLIPVisionTower.
Variable F : Type.
Variable L : Library F.

Lemma clip_feature_select_patch (s : Tower) (out : ForwardOut F) :
  select_feature s = "patch" ->
  feature_select s out =
    rbind (py_index (hidden_states out) (select_layer s))
          (@slice_dim1_from1 F).
Proof. intros H; unfold feature_select; rewrite H; reflexivity. Qed.

Lemma clip_feature_select_cls_patch (s : Tower) (out : ForwardOut F) :
  select_feature s = "cls_patch" ->
  feature_select s out = py_index (hidden_states out) (select_layer s).
Proof.
  intros H; unfold feature_select; rewrite H; simpl.
  destruct (py_index _ _); reflexivity.
Qed.

Lemma clip_feature_select_other (s : Tower) (out : ForwardOut F) h :
  select_feature s <> "patch" ->
  select_feature s <> "cls_patch" ->
  py_index (hidden_states out) (select_layer s) = Ok h ->
  feature_select s out =
    Err (ValueError (unexpected_select_feature (select_feature s))).
Proof.
  intros Hp Hc Hi; unfold feature_select; rewrite Hi; simpl.
  apply String.eqb_neq in Hp, Hc; rewrite Hp, Hc; reflexivity.
Qed.

Lemma clip_feature_select_known_error (s : Tower) (out : ForwardOut F) e :
  select_feature s = "patch" \/ select_feature s = "cls_patch" ->
  feature_select s out = Err e -> e = IndexError.
Proof.
  intros [H|H] E.
  - rewrite clip_feature_select_patch in E by assumption.
    destruct (py_index _ _) eqn:Ei; simpl in E.
    + now apply slice_dim1_from1_error in E.
    + inversion E; subst; now apply py_index_error in Ei.
  - rewrite clip_feature_select_cls_patch in E by assumption.
    now apply py_index_error in E.
Qed.

(** What one pass through the model does to the heap and what it can
    return. *)
Lemma clip_encode_spec (u : bool) (image : Tensor F) (s : Tower)
    (tr : Trace F) r s' tr' :
  encode L u image (s, tr) = (r, (s', tr')) ->
  s' = s /\
  (exists evs, tr' = tr ++ evs /\ Forall (@at_model_dtype F) evs) /\
  (forall f, r = Ok f -> t_dtype f = t_dtype image).
Proof.
  unfold encode, device, dtype; run_monad.
  destruct (vision_tower s) as [m|]; simpl; intros H.
  - destruct (vision_model_call L m _ true) as [out|code]; simpl in H.
    + destruct (feature_select s out) as [sel|e]; pair_inv H;
        (split; [reflexivity|split]);
        try (eexists; split; [reflexivity|];
             constructor; [destruct u; reflexivity|constructor]);
        intros f Hf; inversion Hf; reflexivity.
    + pair_inv H; split; [reflexivity|split].
      * eexists; split; [reflexivity|].
        constructor; [destruct u; reflexivity|constructor].
      * discriminate.
  - pair_inv H; split; [reflexivity|split].
    + exists []; split; [now rewrite app_nil_r|constructor].
    + discriminate.
Qed.

Lemma clip_forward_loop_spec (items : list (Tensor F)) :
  forall acc s tr r s' tr',
    forward_loop L items acc (s, tr) = (r, (s', tr')) ->
    s' = s /\
    (exists evs, tr' = tr ++ evs /\ Forall (@at_model_dtype F) evs) /\
    (forall fs, r = Ok fs ->
       exists new, fs = acc ++ new /\ Forall2 (@same_dtype F) items new).
Proof.
  induction items as [|image rest IH]; intros acc s tr r s' tr' H.
  - simpl in H; unfold ret in H; pair_inv H.
    split; [reflexivity|split].
    + exists []; split; [now rewrite app_nil_r|constructor].
    + intros fs Hfs; inversion Hfs; subst.
      exists []; split; [now rewrite app_nil_r|constructor].
  - simpl in H; unfold bind at 1 in H.
    destruct (encode L true image (s, tr)) as [[f|e] [s1 tr1]] eqn:E;
      apply clip_encode_spec in E as (-> & (evs1 & -> & Hevs1) & Hdt).
    + apply IH in H as (-> & (evs2 & -> & Hevs2) & Hfs).
      split; [reflexivity|split].
      * exists (evs1 ++ evs2); split; [now rewrite app_assoc|].
        apply Forall_app; split; assumption.
      * intros fs Hr; destruct (Hfs fs Hr) as (new & -> & Hnew).
        exists (f :: new); split; [now rewrite <- app_assoc|].
        constructor; [apply Hdt; reflexivity|assumption].
    + pair_inv H; split; [reflexivity|split].
      * exists evs1; split; [reflexivity|assumption].
      * discriminate.
Qed.

(** [forward] reads [self] and never assigns to it; what it returns is a
    pair, and every feature has the dtype of its image. *)
Lemma clip_forward_spec (images : Images F) (s : Tower) (tr : Trace F)
    r s' tr' :
  forward L images (s, tr) = (r, (s', tr')) ->
  s' = s /\
  (exists evs, tr' = tr ++ evs /\ Forall (@at_model_dtype F) evs) /\
  (forall v, r = Ok v ->
     exists fs, paired_output images v fs /\
                Forall2 (@same_dtype F) (image_tensors images) fs).
Proof.
  destruct images as [t|items]; simpl; unfold bind at 1; intros H.
  - destruct (encode L false t (s, tr)) as [[f|e] [s1 tr1]] eqn:E;
      apply clip_encode_spec in E as (-> & Hevs & Hdt);
      unfold ret in H; pair_inv H; (split; [reflexivity|split]);
      try assumption; try discriminate.
    intros v Hv; inversion Hv; subst.
    exists [f]; split.
    + exists f; split; reflexivity.
    + constructor; [apply Hdt; reflexivity|constructor].
  - destruct (forward_loop L items [] (s, tr)) as [[fs|e] [s1 tr1]] eqn:E;
      apply clip_forward_loop_spec in E as (-> & Hevs & Hfs);
      unfold ret in H; pair_inv H; (split; [reflexivity|split]);
      try assumption; try discriminate.
    intros v Hv; inversion Hv; subst.
    destruct (Hfs fs eq_refl) as (new & -> & Hnew); simpl in *.
    exists new; split; [split; [|reflexivity]|assumption].
    symmetry; eapply Forall2_length; eassumption.
Qed.

(** *** Loading *)

Lemma clip_load_model_loaded (s : Tower) device_map (tr : Trace F) :
  is_loaded s = true ->
  load_model L device_map (s, tr) =
    (Ok tt, (s, tr ++ [Printed (already_loaded_notice (vision_tower_name s))])).
Proof. intros H; unfold load_model; run_monad; rewrite H; reflexivity. Qed.

(** The three ways a first load can go. *)
Lemma clip_load_model_unloaded (s : Tower) device_map (tr : Trace F) :
  is_loaded s = false ->
  load_model L device_map (s, tr) =
    let name := vision_tower_name s in
    match CLIPImageProcessor_from_pretrained L name with
    | Failed code => (Err (LibraryError code), (s, tr ++ [LoadCLIPProcessor name]))
    | Returned p =>
        let tr' := (tr ++ [LoadCLIPProcessor name])
                     ++ [LoadCLIPModel name device_map] in
        match CLIPVisionModel_from_pretrained L name device_map with
        | Failed code => (Err (LibraryError code), (set_image_processor p s, tr'))
        | Returned m =>
            (Ok tt,
             (set_is_loaded true
                (set_vision_tower (requires_grad_ false m)
                   (set_vision_tower m (set_image_processor p s))), tr'))
        end
    end.
Proof.
  intros H; unfold load_model; run_monad; rewrite H; simpl.
  destruct (CLIPImageProcessor_from_pretrained L _); simpl; [|reflexivity].
  destruct (CLIPVisionModel_from_pretrained L _ _); reflexivity.
Qed.

Lemma clip_load_model_inv (s : Tower) device_map (tr : Trace F) r s' tr' :
  invariant s ->
  load_model L device_map (s, tr) = (r, (s', tr')) ->
  invariant s'.
Proof.
  intros Hinv; destruct (is_loaded s) eqn:E.
  - rewrite clip_load_model_loaded by assumption.
    intros H; pair_inv H; assumption.
  - rewrite clip_load_model_unloaded by assumption; simpl.
    destruct Hinv as [[Hl _]|[_ [c Hc]]]; [congruence|].
    destruct (CLIPImageProcessor_from_pretrained L _) as [p|code].
    + destruct (CLIPVisionModel_from_pretrained L _ _) as [m|code];
        intros H; pair_inv H.
      * left; simpl; eauto.
      * right; simpl; eauto.
    + intros H; pair_inv H; right; eauto.
Qed.

Lemma clip_load_model_ok (s : Tower) device_map (tr : Trace F) s' tr' :
  load_model L device_map (s, tr) = (Ok tt, (s', tr')) ->
  is_loaded s' = true.
Proof.
  destruct (is_loaded s) eqn:E.
  - rewrite clip_load_model_loaded by assumption.
    intros H; pair_inv H; assumption.
  - rewrite clip_load_model_unloaded by assumption; simpl.
    destruct (CLIPImageProcessor_from_pretrained L _) as [p|code];
      [|discriminate].
    destruct (CLIPVisionModel_from_pretrained L _ _) as [m|code];
      [|discriminate].
    intros H; pair_inv H; reflexivity.
Qed.

Lemma clip_init_inv name args delay_load (tr : Trace F) s tr' :
  init L name args delay_load tr = (Ok s, tr') -> invariant s.
Proof.
  unfold init, construct, init_body.
  assert (Hload : forall s0 tr0,
    match load_model L None (fresh name args, tr) with
    | (Ok _, (obj, tr1)) => (Ok obj, tr1)
    | (Err e, (_, tr1)) => (Err e, tr1)
    end = (Ok s0, tr0) -> invariant s0).
  { intros s0 tr0.
    rewrite clip_load_model_unloaded by reflexivity; simpl.
    destruct (CLIPImageProcessor_from_pretrained L _) as [p|code];
      [|discriminate].
    destruct (CLIPVisionModel_from_pretrained L _ _) as [m|code];
      [|discriminate].
    intros H; pair_inv H; left; simpl; eauto. }
  destruct delay_load; simpl; [|apply Hload].
  destruct (getattr_default (unfreeze_mm_vision_tower args) false);
    [apply Hload|].
  run_monad.
  destruct (CLIPVisionConfig_from_pretrained L name) as [c|code]; simpl;
    intros H; pair_inv H.
  right; simpl; eauto.
Qed.

Lemma clip_reachable_inv (s : Tower) : reachable L s -> invariant s.
Proof.
  induction 1 as [name args delay_load tr s tr' Hinit
                 |s dm tr r s' tr' _ IH Hstep
                 |s images tr r s' tr' _ IH Hstep].
  - eapply clip_init_inv; eassumption.
  - eapply clip_load_model_inv; eassumption.
  - apply clip_forward_spec in Hstep as (-> & _); assumption.
Qed.

Lemma clip_config_inv (s : Tower) :
  invariant s ->
  exists c, config s = Ok c /\
            (is_loaded s = false -> cfg_only s = Some c) /\
            (is_loaded s = true ->
             exists m, vision_tower s = Some m /\ m_config m = c).
Proof.
  unfold config.
  intros [[Hl [m Hm]]|[Hl [c Hc]]]; rewrite Hl.
  - rewrite Hm; exists (m_config m); simpl.
    split; [reflexivity|split]; [discriminate|eauto].
  - rewrite Hc; exists c; simpl.
    split; [reflexivity|split]; [reflexivity|discriminate].
Qed.

End CLIPFacts.

(** ** The Florence tower *)
Section FlorenceFacts.
Import FlorenceVisionTower.
Variable F : Type.
Variable L : Library F.

Lemma florence_load_model_loaded (s : Tower) device_map (tr : Trace F) :
  is_loaded s = true ->
  load_model L device_map (s, tr) =
    (Ok tt, (s, tr ++ [Printed (already_loaded_notice (vision_tower_name s))])).
Proof. intros H; unfold load_model; run_monad; rewrite H; reflexivity. Qed.

Lemma florence_load_model_unloaded (s : Tower) device_map (tr : Trace F) :
  is_loaded s = false ->
  load_model L device_map (s, tr) =
    let name := vision_tower_name s in
    match AutoProcessor_from_pretrained L name true with
    | Failed code =>
        (Err (LibraryError code), (s, tr ++ [LoadAutoProcessor name true]))
    | Returned p =>
        let tr' := (tr ++ [LoadAutoProcessor name true])
                     ++ [LoadAutoModel name true] in
        match AutoModelForCausalLM_from_pretrained L name true with
        | Failed code => (Err (LibraryError code), (set_image_processor p s, tr'))
        | Returned m =>
            (Ok tt,
             (set_is_loaded true
                (set_vision_tower (requires_grad_ false (model_to BFloat16 m))
                   (set_vision_tower (model_to BFloat16 m)
                      (set_image_processor p s))), tr'))
        end
    end.
Proof.
  intros H; unfold load_model; run_monad; rewrite H; simpl.
  destruct (AutoProcessor_from_pretrained L _ true); simpl; [|reflexivity].
  destruct (AutoModelForCausalLM_from_pretrained L _ true); reflexivity.
Qed.

(** The three branches of the constructor are the same call. *)
Lemma florence_init_body_eq (args : Args) (delay_load : bool) :
  init_body L args delay_load = load_model L None.
Proof.
  unfold init_body.
  destruct delay_load; simpl; [|reflexivity].
  destruct (getattr_default _ _); reflexivity.
Qed.

Lemma florence_init_inv name args delay_load (tr : Trace F) s tr' :
  init L name args delay_load tr = (Ok s, tr') -> invariant s.
Proof.
  unfold init, construct; rewrite florence_init_body_eq.
  rewrite florence_load_model_unloaded by reflexivity; simpl.
  destruct (AutoProcessor_from_pretrained L name true) as [p|code];
    [|discriminate].
  destruct (AutoModelForCausalLM_from_pretrained L name true) as [m|code];
    [|discriminate].
  intros H; pair_inv H.
  split; [reflexivity|split]; [reflexivity|].
  eexists; split; reflexivity.
Qed.

(** With a model in place, [forward] is one recorded call of [generate]
    whose generated ids are dropped. *)
Lemma florence_forward_loaded (s : Tower) (m : Model) (images : Images F)
    (tr : Trace F) :
  vision_tower s = Some m ->
  forward L images (s, tr) =
    let args :=
      mkGenerateArgs
        (tensor_to_device (m_device m) (torch_tensor_int task_id_rows))
        images 1 false 1 in
    (rmap (fun out => VTuple [VTensor (image_feature out);
                              VTensor (encoder_last_hidden_state out)])
          (from_library (generate L m args)),
     (s, tr ++ [CallGenerate m args])).
Proof.
  intros H; unfold forward, device; run_monad; rewrite H; simpl.
  destruct (generate L m _); reflexivity.
Qed.

Lemma florence_forward_self (s : Tower) (images : Images F) (tr : Trace F)
    r s' tr' :
  forward L images (s, tr) = (r, (s', tr')) -> s' = s.
Proof.
  destruct (vision_tower s) as [m|] eqn:E.
  - rewrite florence_forward_loaded with (m := m) by assumption; simpl.
    intros H; pair_inv H; reflexivity.
  - unfold forward, device; run_monad; rewrite E; simpl.
    intros H; pair_inv H; reflexivity.
Qed.

Lemma florence_reachable_inv (s : Tower) : reachable L s -> invariant s.
Proof.
  induction 1 as [name args delay_load tr s tr' Hinit
                 |s dm tr r s' tr' _ IH Hstep
                 |s images tr r s' tr' _ IH Hstep].
  - eapply florence_init_inv; eassumption.
  - destruct IH as (Hl & Hc & Hm).
    rewrite florence_load_model_loaded in Hstep by assumption.
    pair_inv Hstep; repeat split; assumption.
  - apply florence_forward_self in Hstep; subst; assumption.
Qed.

End FlorenceFacts.

(** ** Counting loads in a trace *)

Lemma model_load_count_app (F : Type) (tr evs : Trace F) :
  model_load_count (tr ++ evs) = (model_load_count tr + model_load_count evs)%nat.
Proof. unfold model_load_count; now rewrite filter_app, length_app. Qed.

Lemma load_count_app (F : Type) (tr evs : Trace F) :
  load_count (tr ++ evs) = (load_count tr + load_count evs)%nat.
Proof. unfold load_count; now rewrite filter_app, length_app. Qed.

(** * The claims *)

(** ** C2: the config accessor *)

(** C2.  For both towers, [config] returns the cached pre-load config while
    [is_loaded] is false and the loaded model's config once it is true, and
    on every object a caller can hold (whatever the constructor returned,
    followed by any calls of [load_model] and [forward], returning or
    raising) reading [config] yields a config and never hits an unset
    attribute. *)
Theorem config_never_unset (F : Type) (L : Library F) :
  (config_by_load_state CLIPVisionTower.is_loaded CLIPVisionTower.vision_tower
     CLIPVisionTower.cfg_only CLIPVisionTower.config /\
   config_always_set (CLIPVisionTower.reachable L) CLIPVisionTower.is_loaded
     CLIPVisionTower.vision_tower CLIPVisionTower.cfg_only
     CLIPVisionTower.config) /\
  (config_by_load_state FlorenceVisionTower.is_loaded
     FlorenceVisionTower.vision_tower FlorenceVisionTower.cfg_only
     FlorenceVisionTower.config /\
   config_always_set (FlorenceVisionTower.reachable L)
     FlorenceVisionTower.is_loaded FlorenceVisionTower.vision_tower
     FlorenceVisionTower.cfg_only FlorenceVisionTower.config).
Proof.
  split; split.
  - intros s; unfold CLIPVisionTower.config.
    split; intros ->; reflexivity.
  - intros s Hs.
    apply clip_config_inv. eapply clip_reachable_inv; eassumption.
  - intros s; unfold FlorenceVisionTower.config.
    split; intros ->; reflexivity.
  - intros s Hs.
    apply florence_reachable_inv in Hs as (Hl & _ & m & Hm & _).
    exists (m_config m); unfold FlorenceVisionTower.config.
    rewrite Hl, Hm; simpl.
    split; [reflexivity|split]; [congruence|eauto].
Qed.

(** A CLIP tower built with [delay_load=True] and a Florence tower are objects
    a caller can hold, and both read a config. *)
Lemma config_never_unset_witness :
  (CLIPVisionTower.reachable demo_lib demo_clip_delayed /\
   exists c, CLIPVisionTower.config demo_clip_delayed = Ok c /\
     (CLIPVisionTower.is_loaded demo_clip_delayed = false ->
      CLIPVisionTower.cfg_only demo_clip_delayed = Some c) /\
     (CLIPVisionTower.is_loaded demo_clip_delayed = true ->
      exists m, CLIPVisionTower.vision_tower demo_clip_delayed = Some m /\
                m_config m = c)) /\
  (FlorenceVisionTower.reachable demo_lib demo_florence /\
   exists c, FlorenceVisionTower.config demo_florence = Ok c /\
     (FlorenceVisionTower.is_loaded demo_florence = false ->
      FlorenceVisionTower.cfg_only demo_florence = Some c) /\
     (FlorenceVisionTower.is_loaded demo_florence = true ->
      exists m, FlorenceVisionTower.vision_tower demo_florence = Some m /\
                m_config m = c)).
Proof.
  assert (Hc : CLIPVisionTower.reachable demo_lib demo_clip_delayed).
  { apply CLIPVisionTower.reach_init with
      (name := "clip") (args := demo_args) (delay_load := true)
      (tr := []) (tr' := [LoadCLIPConfig "clip"]).
    reflexivity. }
  assert (Hf : FlorenceVisionTower.reachable demo_lib demo_florence).
  { apply FlorenceVisionTower.reach_init with
      (name := "florence") (args := demo_args) (delay_load := true)
      (tr := [])
      (tr' := [LoadAutoProcessor "florence" true; LoadAutoModel "florence" true]).
    reflexivity. }
  split; (split; [assumption|]).
  - exact (proj2 (proj1 (config_never_unset demo_lib)) demo_clip_delayed Hc).
  - exact (proj2 (proj2 (config_never_unset demo_lib)) demo_florence Hf).
Defined.

(** ** C3: loading twice *)

Lemma printed_lines_app (F : Type) (tr evs : Trace F) :
  printed_lines (tr ++ evs) = printed_lines tr ++ printed_lines evs.
Proof. unfold printed_lines; apply flat_map_app. Qed.

Lemma notice_trace (F : Type) (tr : Trace F) (line : string) :
  load_count (tr ++ [Printed line]) = load_count tr /\
  model_load_count (tr ++ [Printed line]) = model_load_count tr /\
  printed_lines (tr ++ [Printed line]) = printed_lines tr ++ [line].
Proof.
  rewrite load_count_app, model_load_count_app, printed_lines_app; simpl.
  unfold load_count, model_load_count; simpl.
  repeat split; apply Nat.add_0_r.
Qed.

(** C3.  For both towers, [load_model] on an already-loaded tower is a no-op
    that prints the notice: it returns normally, leaves every attribute
    (among them [is_loaded], the processor and the model) as it was, and adds
    nothing to the trace but the printed line, so no loader is called.  Hence
    after one successful [load_model] a second one changes nothing, and a
    tower constructed with immediate loading has called the model loader
    exactly once however often [load_model] is called afterwards. *)
Theorem load_model_idempotent (F : Type) (L : Library F) :
  (reload_is_noop CLIPVisionTower.is_loaded CLIPVisionTower.vision_tower_name
     (CLIPVisionTower.load_model L) /\
   second_load_is_noop CLIPVisionTower.is_loaded
     CLIPVisionTower.vision_tower_name (CLIPVisionTower.load_model L) /\
   loads_exactly_once (CLIPVisionTower.init L) (CLIPVisionTower.load_model L)) /\
  (reload_is_noop FlorenceVisionTower.is_loaded
     FlorenceVisionTower.vision_tower_name (FlorenceVisionTower.load_model L) /\
   second_load_is_noop FlorenceVisionTower.is_loaded
     FlorenceVisionTower.vision_tower_name (FlorenceVisionTower.load_model L) /\
   loads_exactly_once (FlorenceVisionTower.init L)
     (FlorenceVisionTower.load_model L)).
Proof.
  split; (split; [|split]).
  - intros s dm tr H; now apply clip_load_model_loaded.
  - intros s dm dm' tr s' tr' H.
    assert (Hl : CLIPVisionTower.is_loaded s' = true)
      by (eapply clip_load_model_ok; eassumption).
    split; [assumption|].
    eexists; split; [now apply clip_load_model_loaded|].
    destruct (notice_trace tr'
                (already_loaded_notice (CLIPVisionTower.vision_tower_name s')))
      as (H1 & _ & H3).
    split; assumption.
  - intros name args s tr'.
    unfold CLIPVisionTower.init, construct, CLIPVisionTower.init_body; simpl.
    rewrite clip_load_model_unloaded by reflexivity; simpl.
    destruct (CLIPImageProcessor_from_pretrained L name) as [p|code];
      [|discriminate].
    destruct (CLIPVisionModel_from_pretrained L name None) as [m|code];
      [|discriminate].
    intros H; pair_inv H.
    split; [reflexivity|].
    intros dm; rewrite clip_load_model_loaded by reflexivity; reflexivity.
  - intros s dm tr H; now apply florence_load_model_loaded.
  - intros s dm dm' tr s' tr' H.
    assert (Hl : FlorenceVisionTower.is_loaded s' = true).
    { destruct (FlorenceVisionTower.is_loaded s) eqn:E.
      - rewrite florence_load_model_loaded in H by assumption.
        pair_inv H; assumption.
      - rewrite florence_load_model_unloaded in H by assumption; simpl in H.
        destruct (AutoProcessor_from_pretrained L _ true); [|discriminate].
        destruct (AutoModelForCausalLM_from_pretrained L _ true);
          [|discriminate].
        pair_inv H; reflexivity. }
    split; [assumption|].
    eexists; split; [now apply florence_load_model_loaded|].
    destruct (notice_trace tr'
                (already_loaded_notice (FlorenceVisionTower.vision_tower_name s')))
      as (H1 & _ & H3).
    split; assumption.
  - intros name args s tr'.
    unfold FlorenceVisionTower.init, construct.
    rewrite florence_init_body_eq.
    rewrite florence_load_model_unloaded by reflexivity; simpl.
    destruct (AutoProcessor_from_pretrained L name true) as [p|code];
      [|discriminate].
    destruct (AutoModelForCausalLM_from_pretrained L name true) as [m|code];
      [|discriminate].
    intros H; pair_inv H.
    split; [reflexivity|].
    intros dm; rewrite florence_load_model_loaded by reflexivity; reflexivity.
Qed.

(** A second [load_model] on the loaded demo towers. *)
Lemma load_model_idempotent_witness :
  (CLIPVisionTower.is_loaded demo_clip = true /\
   CLIPVisionTower.load_model demo_lib (Some "auto")
       (demo_clip, [LoadCLIPProcessor "clip"; LoadCLIPModel "clip" None]) =
     (Ok tt,
      (demo_clip,
       [LoadCLIPProcessor "clip"; LoadCLIPModel "clip" None]
         ++ [Printed (already_loaded_notice "clip")]))) /\
  (FlorenceVisionTower.is_loaded demo_florence = true /\
   FlorenceVisionTower.load_model demo_lib None (demo_florence, []) =
     (Ok tt,
      (demo_florence, [] ++ [Printed (already_loaded_notice "florence")]))).
Proof.
  split; (split; [reflexivity|]).
  - apply (proj1 (proj1 (load_model_idempotent demo_lib))); reflexivity.
  - apply (proj1 (proj2 (load_model_idempotent demo_lib))); reflexivity.
Defined.

(** ** C1: what [CLIPVisionTower.forward] returns *)

(** A pass through the model that returned: the feature is the feature of the
    image, the tower is untouched and the trace has grown by the one
    inference call for the image. *)
Lemma clip_encode_returns (F : Type) (L : Library F) (u : bool)
    (image : Tensor F) (s : CLIPVisionTower.Tower) (tr : Trace F)
    (f : Tensor F) (s' : CLIPVisionTower.Tower) (tr' : Trace F) :
  CLIPVisionTower.encode L u image (s, tr) = (Ok f, (s', tr')) ->
  s' = s /\
  computed_from L s u image f /\
  exists ev, tr' = tr ++ [ev] /\ inference_call L s u image ev.
Proof.
  unfold CLIPVisionTower.encode, CLIPVisionTower.device, CLIPVisionTower.dtype.
  run_monad.
  destruct (CLIPVisionTower.vision_tower s) as [m|] eqn:Hm; simpl;
    [|discriminate].
  destruct (vision_model_call L m _ true) as [out|code] eqn:Hcall; simpl;
    [|discriminate].
  destruct (CLIPVisionTower.feature_select s out) as [sel|e] eqn:Hsel;
    [|discriminate].
  intros H; pair_inv H.
  split; [reflexivity|split].
  - exists m, out, sel; unfold model_input.
    repeat split; first [assumption | reflexivity].
  - eexists; split; [reflexivity|].
    exists m; unfold model_input.
    repeat split; first [assumption | destruct u; reflexivity].
Qed.

Lemma clip_forward_loop_returns (F : Type) (L : Library F)
    (s : CLIPVisionTower.Tower) (items : list (Tensor F)) :
  forall acc tr fs s' tr',
    CLIPVisionTower.forward_loop L items acc (s, tr) = (Ok fs, (s', tr')) ->
    exists new calls,
      fs = acc ++ new /\
      Forall2 (computed_from L s true) items new /\
      tr' = tr ++ calls /\
      Forall2 (inference_call L s true) items calls.
Proof.
  induction items as [|image rest IH]; intros acc tr fs s' tr' H.
  - simpl in H; unfold ret in H; pair_inv H.
    exists [], []; rewrite !app_nil_r.
    repeat split; constructor.
  - simpl in H; unfold bind at 1 in H.
    destruct (CLIPVisionTower.encode L true image (s, tr))
      as [[f|e] [s1 tr1]] eqn:E; [|discriminate].
    apply clip_encode_returns in E as (-> & Hf & ev & -> & Hev).
    apply IH in H as (new & calls & -> & Hnew & -> & Hcalls).
    exists (f :: new), (ev :: calls).
    rewrite <- !app_assoc; simpl.
    repeat split; constructor; assumption.
Qed.

(** What a [forward] that returned has done. *)
Lemma clip_forward_returns (F : Type) (L : Library F) (images : Images F)
    (s : CLIPVisionTower.Tower) (tr : Trace F) (v : PyVal F)
    (s' : CLIPVisionTower.Tower) (tr' : Trace F) :
  CLIPVisionTower.forward L images (s, tr) = (Ok v, (s', tr')) ->
  exists fs calls,
    paired_output images v fs /\
    Forall2 (computed_from L s (is_list images)) (image_tensors images) fs /\
    tr' = tr ++ calls /\
    Forall2 (inference_call L s (is_list images)) (image_tensors images) calls.
Proof.
  destruct images as [t|items]; simpl; unfold bind at 1; intros H.
  - destruct (CLIPVisionTower.encode L false t (s, tr))
      as [[f|e] [s1 tr1]] eqn:E; unfold ret in H; pair_inv H.
    apply clip_encode_returns in E as (_ & Hf & ev & -> & Hev).
    exists [f], [ev]; repeat split.
    + exists f; split; reflexivity.
    + constructor; [assumption|constructor].
    + constructor; [assumption|constructor].
  - destruct (CLIPVisionTower.forward_loop L items [] (s, tr))
      as [[fs|e] [s1 tr1]] eqn:E; unfold ret in H; pair_inv H.
    apply clip_forward_loop_returns in E
      as (new & calls & -> & Hnew & -> & Hcalls); simpl.
    exists new, calls; repeat split; try assumption.
    symmetry; eapply Forall2_length; eassumption.
Qed.

(** C1 as stated fails: on a batched tensor [forward] returns a 2-tuple, not
    a single tensor. *)
Lemma clip_forward_not_plain :
  exists f,
    fst (CLIPVisionTower.forward demo_lib (Batched demo_batch) (demo_clip, []))
      = Ok (VTuple [VTensor f; VTensor f]) /\
    plain_output (Batched demo_batch) (VTuple [VTensor f; VTensor f]) = false.
Proof. eexists; split; reflexivity. Qed.

(** C1, amended.  Whenever [CLIPVisionTower.forward] returns, its output is
    a 2-tuple whose two components are the same value: the feature tensor
    when the input is a batched tensor, and a list of feature tensors, one per
    input image and in the same order, when the input is a list.  The feature
    at each position is the one computed from the image at that position: the
    model's selected hidden state for that image, converted to the image's
    dtype. *)
Theorem clip_forward_returns_pair (F : Type) (L : Library F)
    (images : Images F) (s : CLIPVisionTower.Tower) (tr : Trace F)
    (v : PyVal F) (h' : Heap CLIPVisionTower.Tower F) :
  CLIPVisionTower.forward L images (s, tr) = (Ok v, h') ->
  exists fs,
    paired_output images v fs /\
    Forall2 (computed_from L s (is_list images)) (image_tensors images) fs.
Proof.
  destruct h' as [s' tr']; intros H.
  apply clip_forward_returns in H as (fs & calls & Hp & Hf & _).
  exists fs; split; assumption.
Qed.

Lemma clip_forward_returns_pair_witness :
  exists v h',
    CLIPVisionTower.forward demo_lib (ImageList [demo_image; demo_image])
      (demo_clip, []) = (Ok v, h') /\
    exists fs,
      paired_output (ImageList [demo_image; demo_image]) v fs /\
      Forall2 (computed_from demo_lib demo_clip true)
              [demo_image; demo_image] fs.
Proof.
  eexists; eexists; split; [reflexivity|].
  eapply (@clip_forward_returns_pair Z demo_lib
            (ImageList [demo_image; demo_image]) demo_clip []).
  reflexivity.
Defined.

(** ** C7: the dtype of the returned features *)

(** C7.  Whenever [CLIPVisionTower.forward] returns, it has run the model
    once for every input image tensor (the batch, or each image of the list,
    in order), each time on the image converted to the loaded model's dtype,
    and every returned feature tensor is the selected hidden state of the
    call for the image at its position, converted to the dtype of that image:
    the dtype of each returned feature equals the dtype of the corresponding
    input. *)
Theorem clip_forward_keeps_input_dtype (F : Type) (L : Library F)
    (images : Images F) (s s' : CLIPVisionTower.Tower) (tr tr' : Trace F)
    (v : PyVal F) :
  CLIPVisionTower.forward L images (s, tr) = (Ok v, (s', tr')) ->
  exists fs calls,
    paired_output images v fs /\
    Forall2 (fun image f =>
               computed_from L s (is_list images) image f /\
               t_dtype f = t_dtype image)
            (image_tensors images) fs /\
    tr' = tr ++ calls /\
    Forall2 (inference_call L s (is_list images)) (image_tensors images) calls.
Proof.
  intros H.
  apply clip_forward_returns in H as (fs & calls & Hp & Hf & Htr & Hcalls).
  exists fs, calls; repeat split; try assumption.
  clear Hp Hcalls Htr.
  induction Hf as [|image f rest fs' Hc _ IH]; constructor; [|exact IH].
  split; [exact Hc|].
  destruct Hc as (m & out & sel & _ & _ & _ & ->); reflexivity.
Qed.

(** A float32 batch through the float16 demo model: one call at float16, a
    float32 feature. *)
Lemma clip_forward_keeps_input_dtype_witness :
  exists v h',
    CLIPVisionTower.forward demo_lib (Batched demo_batch) (demo_clip, [])
      = (Ok v, h') /\
    t_dtype demo_batch = Float32 /\
    m_dtype demo_clip_model = Float16 /\
    exists fs calls,
      paired_output (Batched demo_batch) v fs /\
      Forall2 (fun image f =>
                 computed_from demo_lib demo_clip false image f /\
                 t_dtype f = t_dtype image)
              [demo_batch] fs /\
      snd h' = [] ++ calls /\
      Forall2 (inference_call demo_lib demo_clip false) [demo_batch] calls.
Proof.
  eexists; eexists; split; [reflexivity|].
  split; [reflexivity|].
  split; [reflexivity|].
  eapply (@clip_forward_keeps_input_dtype Z demo_lib (Batched demo_batch)
            demo_clip demo_clip []).
  reflexivity.
Defined.

(** ** C4: patch tokens against class-and-patch tokens *)

(** Converting the scalars and dropping the first token commute. *)
Lemma drop_first_row_nd_map (V : Type) (f : V -> V) (r : NDArray V) :
  drop_first_row (nd_map f r) = rmap (nd_map f) (drop_first_row r).
Proof.
  destruct r as [v|tokens]; [reflexivity|].
  unfold drop_first_row, rmap, rbind; cbn [nd_map].
  now rewrite skipn_map.
Qed.

Lemma collect_drop_first_nd_map (V : Type) (f : V -> V)
    (rows : list (NDArray V)) :
  collect (map (@drop_first_row V) (map (nd_map f) rows)) =
    rmap (map (nd_map f)) (collect (map (@drop_first_row V) rows)).
Proof.
  induction rows as [|r rows IH]; simpl; [reflexivity|].
  rewrite drop_first_row_nd_map, IH.
  destruct (drop_first_row r); [|reflexivity].
  destruct (collect (map (@drop_first_row V) rows)); reflexivity.
Qed.

Lemma slice_tensor_to_dtype (V : Type) (cast : Dtype -> V -> V) (dt : Dtype)
    (t : Tensor V) :
  slice_dim1_from1 (tensor_to_dtype cast dt t) =
    rmap (tensor_to_dtype cast dt) (slice_dim1_from1 t).
Proof.
  unfold slice_dim1_from1, tensor_to_dtype, nd_slice_dim1_from1; simpl.
  destruct (t_data t) as [v|rows]; simpl; [reflexivity|].
  rewrite collect_drop_first_nd_map.
  destruct (collect _); reflexivity.
Qed.

(** One pass through the model under ["patch"] is the pass under
    ["cls_patch"] followed by the slice. *)
Lemma clip_encode_patch_of_cls (F : Type) (L : Library F) (u : bool)
    (image : Tensor F) (s_patch s_cls : CLIPVisionTower.Tower)
    (tr : Trace F) :
  CLIPVisionTower.select_feature s_patch = "patch" ->
  CLIPVisionTower.select_feature s_cls = "cls_patch" ->
  CLIPVisionTower.select_layer s_patch = CLIPVisionTower.select_layer s_cls ->
  CLIPVisionTower.vision_tower s_patch = CLIPVisionTower.vision_tower s_cls ->
  fst (CLIPVisionTower.encode L u image (s_patch, tr)) =
    rbind (fst (CLIPVisionTower.encode L u image (s_cls, tr)))
          (@slice_dim1_from1 F).
Proof.
  intros Hp Hc Hl Hv.
  unfold CLIPVisionTower.encode, CLIPVisionTower.device, CLIPVisionTower.dtype.
  run_monad; rewrite Hv.
  destruct (CLIPVisionTower.vision_tower s_cls) as [m|]; simpl;
    [|reflexivity].
  destruct (vision_model_call L m _ true) as [out|code]; simpl; [|reflexivity].
  rewrite (@clip_feature_select_patch F s_patch out Hp),
    (@clip_feature_select_cls_patch F s_cls out Hc), Hl.
  destruct (py_index _ _) as [h|e]; simpl; [|reflexivity].
  rewrite slice_tensor_to_dtype.
  destruct (slice_dim1_from1 h); reflexivity.
Qed.

(** C4.  On the same model output and the same [select_layer], the feature
    selected under ["cls_patch"] is the hidden state at [select_layer] as it
    is, and the feature selected under ["patch"] is that feature with the
    first token of every sequence removed and nothing else changed; on a
    hidden state with a batch and a sequence dimension the ["patch"] selection
    succeeds whenever the ["cls_patch"] one does.  The same relation holds
    between what [forward] returns for a batch under the two modes. *)
Theorem clip_patch_drops_first_token (F : Type) (L : Library F)
    (s_patch s_cls : CLIPVisionTower.Tower) (out : ForwardOut F) :
  CLIPVisionTower.select_feature s_patch = "patch" ->
  CLIPVisionTower.select_feature s_cls = "cls_patch" ->
  CLIPVisionTower.select_layer s_patch = CLIPVisionTower.select_layer s_cls ->
  CLIPVisionTower.feature_select s_cls out =
    py_index (hidden_states out) (CLIPVisionTower.select_layer s_cls) /\
  CLIPVisionTower.feature_select s_patch out =
    rbind (CLIPVisionTower.feature_select s_cls out) (@slice_dim1_from1 F) /\
  (forall h, CLIPVisionTower.feature_select s_cls out = Ok h ->
     (forall p, CLIPVisionTower.feature_select s_patch out = Ok p ->
                drops_first_token h p) /\
     (has_sequence_dim h = true ->
      exists p, CLIPVisionTower.feature_select s_patch out = Ok p)) /\
  (CLIPVisionTower.vision_tower s_patch = CLIPVisionTower.vision_tower s_cls ->
   forall t tr c,
     fst (CLIPVisionTower.forward L (Batched t) (s_cls, tr)) =
       Ok (VTuple [VTensor c; VTensor c]) ->
     fst (CLIPVisionTower.forward L (Batched t) (s_patch, tr)) =
       rmap (fun p => VTuple [VTensor p; VTensor p]) (slice_dim1_from1 c) /\
     forall p, slice_dim1_from1 c = Ok p -> drops_first_token c p).
Proof.
  intros Hp Hc Hl.
  split; [|split; [|split]].
  - now apply clip_feature_select_cls_patch.
  - rewrite (@clip_feature_select_patch F s_patch out Hp),
      (@clip_feature_select_cls_patch F s_cls out Hc), Hl; reflexivity.
  - rewrite (@clip_feature_select_patch F s_patch out Hp),
      (@clip_feature_select_cls_patch F s_cls out Hc), Hl.
    intros h Hh; rewrite Hh; simpl; split.
    + intros p; apply slice_dim1_from1_drops.
    + apply slice_dim1_from1_total.
  - intros Hv t tr c Hcls.
    split; [|intros p; apply slice_dim1_from1_drops].
    pose proof (@clip_encode_patch_of_cls F L false t s_patch s_cls tr
                  Hp Hc Hl Hv) as E.
    simpl in Hcls |- *; unfold bind, ret in Hcls |- *.
    destruct (CLIPVisionTower.encode L false t (s_cls, tr))
      as [[c0|e] [s1 tr1]]; simpl in Hcls; [|discriminate].
    inversion Hcls; subst c0; clear Hcls.
    destruct (CLIPVisionTower.encode L false t (s_patch, tr))
      as [[p0|e] [s2 tr2]]; simpl in E |- *; rewrite <- E; reflexivity.
Qed.

Lemma clip_patch_drops_first_token_witness :
  let out := mkForwardOut [demo_hidden demo_clip_model demo_batch 0;
                           demo_hidden demo_clip_model demo_batch 1;
                           demo_hidden demo_clip_model demo_batch 2] in
  CLIPVisionTower.feature_select demo_clip_cls_patch out
    = Ok (demo_hidden demo_clip_model demo_batch 1) /\
  exists p, CLIPVisionTower.feature_select demo_clip out = Ok p /\
            drops_first_token (demo_hidden demo_clip_model demo_batch 1) p.
Proof.
  intros out.
  destruct (@clip_patch_drops_first_token Z demo_lib demo_clip
              demo_clip_cls_patch out eq_refl eq_refl eq_refl)
    as (Hc & _ & Hh & _).
  split; [exact Hc|].
  destruct (Hh _ Hc) as (Hd & Ht).
  destruct (Ht eq_refl) as (p & Hp).
  exists p; split; [exact Hp|exact (Hd p Hp)].
Defined.

(** ** C5: an unknown feature-selection mode *)

Section CLIPModeErrors.
Import CLIPVisionTower.
Variable F : Type.
Variable L : Library F.

Lemma clip_feature_select_known_no_value_error (s : Tower)
    (out : ForwardOut F) (msg : string) :
  select_feature s = "patch" \/ select_feature s = "cls_patch" ->
  feature_select s out <> Err (ValueError msg).
Proof.
  intros Hmode H.
  apply clip_feature_select_known_error in H; [discriminate|assumption].
Qed.

Lemma clip_encode_known_mode (u : bool) (image : Tensor F) (s : Tower)
    (tr : Trace F) e h' :
  select_feature s = "patch" \/ select_feature s = "cls_patch" ->
  encode L u image (s, tr) = (Err e, h') ->
  own_or_model_failure L s e.
Proof.
  intros Hmode; unfold encode, device, dtype; run_monad.
  destruct (vision_tower s) as [m|] eqn:Hm; simpl; intros H.
  - destruct (vision_model_call L m _ true) as [out|code] eqn:Hcall;
      simpl in H.
    + destruct (feature_select s out) as [sel|e0] eqn:E; pair_inv H.
      apply clip_feature_select_known_error in E; [|assumption].
      right; left; assumption.
    + pair_inv H; right; right.
      eexists m, _, code; repeat split; first [eassumption | reflexivity].
  - pair_inv H; left; reflexivity.
Qed.

Lemma clip_forward_loop_known_mode (items : list (Tensor F)) :
  forall acc (s : Tower) (tr : Trace F) e h',
    select_feature s = "patch" \/ select_feature s = "cls_patch" ->
    forward_loop L items acc (s, tr) = (Err e, h') ->
    own_or_model_failure L s e.
Proof.
  induction items as [|image rest IH]; intros acc s tr e h' Hmode H.
  - simpl in H; unfold ret in H; discriminate.
  - simpl in H; unfold bind at 1 in H.
    destruct (encode L true image (s, tr)) as [[f|e0] [s1 tr1]] eqn:E.
    + pose proof (clip_encode_spec _ _ _ _ _ E) as (-> & _).
      eapply IH; eassumption.
    + pair_inv H; eapply clip_encode_known_mode; eassumption.
Qed.

Lemma clip_forward_known_mode (images : Images F) (s : Tower)
    (tr : Trace F) e h' :
  select_feature s = "patch" \/ select_feature s = "cls_patch" ->
  forward L images (s, tr) = (Err e, h') ->
  own_or_model_failure L s e.
Proof.
  intros Hmode; destruct images as [t|items]; simpl; unfold bind at 1.
  - destruct (encode L false t (s, tr)) as [[f|e0] [s1 tr1]] eqn:E;
      unfold ret; intros H; pair_inv H.
    eapply clip_encode_known_mode; eassumption.
  - destruct (forward_loop L items [] (s, tr)) as [[fs|e0] [s1 tr1]] eqn:E;
      unfold ret; intros H; pair_inv H.
    eapply clip_forward_loop_known_mode; eassumption.
Qed.

Lemma clip_forward_unknown_mode (images : Images F) (s : Tower)
    (tr : Trace F) m x out h :
  vision_tower s = Some m ->
  first_model_input L m images = Some x ->
  vision_model_call L m x true = Returned out ->
  py_index (hidden_states out) (select_layer s) = Ok h ->
  select_feature s <> "patch" ->
  select_feature s <> "cls_patch" ->
  fst (forward L images (s, tr)) =
    Err (ValueError (unexpected_select_feature (select_feature s))).
Proof.
  intros Hm Hx Hcall Hidx Hp Hc.
  pose proof (clip_feature_select_other s out Hp Hc Hidx) as Hsel.
  destruct images as [t|[|image rest]]; simpl in Hx; pair_inv Hx;
    simpl; unfold encode, device, dtype; run_monad;
    rewrite Hm; simpl; rewrite Hcall; simpl; rewrite Hsel; reflexivity.
Qed.

End CLIPModeErrors.

(** C5 as stated fails: with the unknown mode ["cls"], [forward] on an empty
    list of images raises nothing and returns a pair of empty lists. *)
Lemma clip_forward_odd_mode_no_error :
  CLIPVisionTower.select_feature demo_clip_odd = "cls" /\
  fst (CLIPVisionTower.forward demo_lib (ImageList []) (demo_clip_odd, []))
    = Ok (VTuple [VList []; VList []]).
Proof. split; reflexivity. Qed.

(** C5, amended.  For a [select_feature] other than ["patch"] and
    ["cls_patch"], [forward] raises [ValueError] with the message
    "Unexpected select feature: " followed by the value whenever it reaches
    feature selection: the tower holds a model, the input is a batched tensor
    or a non-empty list, the model call on the first input returns, and
    [select_layer] indexes one of its hidden states.  On an empty list
    [forward] returns a pair of empty lists and raises nothing, whatever
    [select_feature] is.  For ["patch"] and ["cls_patch"] no such error is
    raised: feature selection raises no [ValueError], and whatever [forward]
    raises is the [AttributeError] of a tower without a model, an
    [IndexError] of the layer index or of the slice, or the failure of a
    model call, passed on as it is. *)
Theorem clip_forward_select_feature_error (F : Type) (L : Library F)
    (images : Images F) (s : CLIPVisionTower.Tower) (tr : Trace F) :
  (CLIPVisionTower.select_feature s <> "patch" ->
   CLIPVisionTower.select_feature s <> "cls_patch" ->
   forall m x out h,
     CLIPVisionTower.vision_tower s = Some m ->
     first_model_input L m images = Some x ->
     vision_model_call L m x true = Returned out ->
     py_index (hidden_states out) (CLIPVisionTower.select_layer s) = Ok h ->
     fst (CLIPVisionTower.forward L images (s, tr)) =
       Err (ValueError ("Unexpected select feature: "
                          ++ CLIPVisionTower.select_feature s)%string)) /\
  CLIPVisionTower.forward L (ImageList []) (s, tr) =
    (Ok (VTuple [VList []; VList []]), (s, tr)) /\
  (CLIPVisionTower.select_feature s = "patch" \/
   CLIPVisionTower.select_feature s = "cls_patch" ->
   (forall (out : ForwardOut F) msg,
      CLIPVisionTower.feature_select s out <> Err (ValueError msg)) /\
   (forall e h',
      CLIPVisionTower.forward L images (s, tr) = (Err e, h') ->
      own_or_model_failure L s e)).
Proof.
  split; [|split].
  - intros Hp Hc m x out h Hm Hx Hcall Hidx.
    eapply clip_forward_unknown_mode; eassumption.
  - reflexivity.
  - intros Hmode; split.
    + intros out msg; now apply clip_feature_select_known_no_value_error.
    + intros e h' H; eapply clip_forward_known_mode; eassumption.
Qed.

(** The unknown mode on one image, the unknown mode on no image, and a known
    mode with a layer the model does not have. *)
Lemma clip_forward_select_feature_error_witness :
  fst (CLIPVisionTower.forward demo_lib (ImageList [demo_image])
         (demo_clip_odd, []))
    = Err (ValueError "Unexpected select feature: cls") /\
  CLIPVisionTower.forward demo_lib (ImageList []) (demo_clip_odd, []) =
    (Ok (VTuple [VList []; VList []]), (demo_clip_odd, [])) /\
  fst (CLIPVisionTower.forward demo_lib (ImageList [demo_image])
         (demo_clip_deep, [])) = Err IndexError /\
  own_or_model_failure demo_lib demo_clip_deep IndexError.
Proof.
  split; [|split; [|split]].
  - refine (proj1 (@clip_forward_select_feature_error Z demo_lib
                     (ImageList [demo_image]) demo_clip_odd [])
                  _ _ demo_clip_model _ _ _ eq_refl eq_refl eq_refl eq_refl);
      discriminate.
  - exact (proj1 (proj2 (@clip_forward_select_feature_error Z demo_lib
                           (ImageList []) demo_clip_odd []))).
  - reflexivity.
  - refine (proj2 (proj2 (proj2 (@clip_forward_select_feature_error Z demo_lib
                                   (ImageList [demo_image]) demo_clip_deep []))
                     (or_introl eq_refl))
                  IndexError _ _).
    reflexivity.
Defined.

(** ** C6: the patch grid *)

Lemma floordiv_nonzero (a b : Z) : b <> 0 -> floordiv a b = Ok (a / b).
Proof. intros H; unfold floordiv; apply Z.eqb_neq in H; now rewrite H. Qed.

(** C6.  For both towers, on a loaded tower [num_patches_per_side] is the
    config's [image_size // patch_size] (raising [ZeroDivisionError] exactly
    when that division does) and [num_patches] is the square of
    [num_patches_per_side]. *)
Theorem num_patches_is_side_squared :
  patch_geometry CLIPVisionTower.is_loaded CLIPVisionTower.vision_tower
    CLIPVisionTower.num_patches_per_side CLIPVisionTower.num_patches /\
  patch_geometry FlorenceVisionTower.is_loaded FlorenceVisionTower.vision_tower
    FlorenceVisionTower.num_patches_per_side FlorenceVisionTower.num_patches.
Proof.
  split; intros s m Hl Hm image_size patch_size.
  - unfold CLIPVisionTower.num_patches_per_side, CLIPVisionTower.num_patches,
      CLIPVisionTower.config.
    rewrite Hl, Hm; cbn [getattr rmap rbind]; fold image_size patch_size.
    rewrite property_floordiv, property_floordiv_then.
    split; [reflexivity|split]; [reflexivity|].
    intros Hp; rewrite (floordiv_nonzero image_size Hp); split; reflexivity.
  - unfold FlorenceVisionTower.num_patches_per_side,
      FlorenceVisionTower.num_patches, FlorenceVisionTower.config.
    rewrite Hl, Hm; cbn [getattr rmap rbind]; fold image_size patch_size.
    rewrite property_floordiv, property_floordiv_then.
    split; [reflexivity|split]; [reflexivity|].
    intros Hp; rewrite (floordiv_nonzero image_size Hp); split; reflexivity.
Qed.

(** A 336-pixel image cut in 14-pixel patches: 24 per side, 576 in all. *)
Lemma num_patches_is_side_squared_witness :
  (CLIPVisionTower.num_patches_per_side demo_clip = Ok 24 /\
   CLIPVisionTower.num_patches demo_clip = Ok 576) /\
  (FlorenceVisionTower.num_patches_per_side demo_florence = Ok 24 /\
   FlorenceVisionTower.num_patches demo_florence = Ok 576).
Proof.
  split.
  - refine (proj2 (proj2 (proj1 num_patches_is_side_squared
                            demo_clip demo_clip_model eq_refl eq_refl)) _).
    simpl; lia.
  - refine (proj2 (proj2 (proj2 num_patches_is_side_squared
                            demo_florence demo_florence_model eq_refl eq_refl)) _).
    simpl; lia.
Defined.

(** ** C9: the placeholder feature *)

Lemma torch_zeros_row (V : Type) (z : V) (h : Z) (dev : Device) (dt : Dtype) :
  0 <= h ->
  torch_zeros z [1; h] dev dt =
    Ok (mkTensor dt dev (nd_full z [1%nat; Z.to_nat h])).
Proof.
  intros H; unfold torch_zeros; simpl.
  assert (E : (h <? 0) = false) by (apply Z.ltb_ge; assumption).
  rewrite E; reflexivity.
Qed.

Lemma shape_zeros_row (V : Type) (z : V) (n : nat) :
  nd_shape (nd_full z [1%nat; n]) = [1%nat; n].
Proof. simpl; rewrite repeat_length; destruct n; reflexivity. Qed.

(** C9.  For both towers, on a loaded tower (whose config has a
    non-negative [hidden_size]) [dummy_feature] returns a tensor of shape
    [[1, hidden_size]], filled with zeros, with the loaded model's dtype and
    device. *)
Theorem dummy_feature_shape_dtype_device (F : Type) (L : Library F) :
  dummy_feature_is_zero_row (zero L) CLIPVisionTower.is_loaded
    CLIPVisionTower.vision_tower (CLIPVisionTower.dummy_feature L) /\
  dummy_feature_is_zero_row (zero L) FlorenceVisionTower.is_loaded
    FlorenceVisionTower.vision_tower (FlorenceVisionTower.dummy_feature L).
Proof.
  split; intros s m Hl Hm Hh; eexists.
  - unfold CLIPVisionTower.dummy_feature, CLIPVisionTower.hidden_size,
      CLIPVisionTower.config, CLIPVisionTower.device, CLIPVisionTower.dtype.
    rewrite Hl, Hm; simpl rbind.
    rewrite torch_zeros_row by assumption.
    split; [reflexivity|].
    unfold shape; cbn [t_data t_dtype t_device].
    rewrite shape_zeros_row; cbn [map].
    rewrite Z2Nat.id by assumption.
    repeat split.
  - unfold FlorenceVisionTower.dummy_feature, FlorenceVisionTower.hidden_size,
      FlorenceVisionTower.config, FlorenceVisionTower.device,
      FlorenceVisionTower.dtype.
    rewrite Hl, Hm; simpl rbind.
    rewrite torch_zeros_row by assumption.
    split; [reflexivity|].
    unfold shape; cbn [t_data t_dtype t_device].
    rewrite shape_zeros_row; cbn [map].
    rewrite Z2Nat.id by assumption.
    repeat split.
Qed.

Lemma dummy_feature_shape_dtype_device_witness :
  (0 <= c_hidden_size (m_config demo_clip_model) /\
   exists t, CLIPVisionTower.dummy_feature demo_lib demo_clip = Ok t /\
             map Z.of_nat (shape t) = [1; 1024] /\
             t_dtype t = Float16 /\ t_device t = Cuda 0 /\
             t_data t = nd_full 0 [1%nat; Z.to_nat 1024]) /\
  (0 <= c_hidden_size (m_config demo_florence_model) /\
   exists t, FlorenceVisionTower.dummy_feature demo_lib demo_florence = Ok t /\
             map Z.of_nat (shape t) = [1; 1024] /\
             t_dtype t = BFloat16 /\ t_device t = Cuda 0 /\
             t_data t = nd_full 0 [1%nat; Z.to_nat 1024]).
Proof.
  assert (H : 0 <= 1024) by lia.
  split; (split; [exact H|]).
  - exact (proj1 (dummy_feature_shape_dtype_device demo_lib)
             demo_clip demo_clip_model eq_refl eq_refl H).
  - exact (proj2 (dummy_feature_shape_dtype_device demo_lib)
             demo_florence demo_florence_model eq_refl eq_refl H).
Defined.

(** ** C8: generation as feature extraction *)

(** C8.  On a tower holding a model, [FlorenceVisionTower.forward] makes
    exactly one call of [generate], whatever the images: its [input_ids] are
    the hard-coded 3 x 14 table of task ids moved to the model's device, its
    [pixel_values] are the images as given, [max_new_tokens] is 1,
    [do_sample] is false and [num_beams] is 1.  When the call returns,
    [forward] returns the pair (image feature, encoder last hidden state) of
    its result and drops the generated ids; when it fails, the failure is
    passed on. *)
Theorem florence_forward_fixed_prompt (F : Type) (L : Library F)
    (s : FlorenceVisionTower.Tower) (m : Model) (images : Images F)
    (tr : Trace F) :
  FlorenceVisionTower.vision_tower s = Some m ->
  exists args,
    input_ids args =
      tensor_to_device (m_device m)
        (torch_tensor_int FlorenceVisionTower.task_id_rows) /\
    shape (input_ids args) = [3%nat; 14%nat] /\
    pixel_values args = images /\
    max_new_tokens args = 1 /\
    do_sample args = false /\
    num_beams args = 1 /\
    snd (FlorenceVisionTower.forward L images (s, tr)) =
      (s, tr ++ [CallGenerate m args]) /\
    fst (FlorenceVisionTower.forward L images (s, tr)) =
      match generate L m args with
      | Returned out =>
          Ok (VTuple [VTensor (image_feature out);
                      VTensor (encoder_last_hidden_state out)])
      | Failed code => Err (LibraryError code)
      end.
Proof.
  intros Hm.
  rewrite florence_forward_loaded with (m := m) by assumption.
  exists (mkGenerateArgs
            (tensor_to_device (m_device m)
               (torch_tensor_int FlorenceVisionTower.task_id_rows))
            images 1 false 1).
  cbv zeta; repeat split.
  simpl; destruct (generate L m _); reflexivity.
Qed.

Lemma florence_forward_fixed_prompt_witness :
  FlorenceVisionTower.vision_tower demo_florence = Some demo_florence_model /\
  exists args,
    input_ids args =
      tensor_to_device (Cuda 0)
        (torch_tensor_int FlorenceVisionTower.task_id_rows) /\
    shape (input_ids args) = [3%nat; 14%nat] /\
    pixel_values args = Batched demo_batch /\
    max_new_tokens args = 1 /\
    do_sample args = false /\
    num_beams args = 1 /\
    snd (FlorenceVisionTower.forward demo_lib (Batched demo_batch)
           (demo_florence, [])) =
      (demo_florence, [] ++ [CallGenerate demo_florence_model args]) /\
    fst (FlorenceVisionTower.forward demo_lib (Batched demo_batch)
           (demo_florence, [])) =
      match generate demo_lib demo_florence_model args with
      | Returned out =>
          Ok (VTuple [VTensor (image_feature out);
                      VTensor (encoder_last_hidden_state out)])
      | Failed code => Err (LibraryError code)
      end.
Proof.
  split; [reflexivity|].
  exact (@florence_forward_fixed_prompt Z demo_lib demo_florence
           demo_florence_model (Batched demo_batch) [] eq_refl).
Defined.

(** ** C10: the Florence constructor *)

(** C10.  Whatever [delay_load] and [unfreeze_mm_vision_tower] are, the body
    of the [FlorenceVisionTower] constructor is one call of [load_model]: the
    constructor returns exactly when that load succeeds, the tower it returns
    is loaded and has no [cfg_only], and both stay so on every object a
    caller can hold. *)
Theorem florence_init_always_loads (F : Type) (L : Library F)
    (name : string) (args : Args) (delay_load : bool) (tr : Trace F) :
  FlorenceVisionTower.init_body L args delay_load =
    FlorenceVisionTower.load_model L None /\
  FlorenceVisionTower.init L name args delay_load tr =
    construct (FlorenceVisionTower.fresh name)
              (FlorenceVisionTower.load_model L None) tr /\
  (forall s tr',
     FlorenceVisionTower.init L name args delay_load tr = (Ok s, tr') ->
     FlorenceVisionTower.is_loaded s = true /\
     FlorenceVisionTower.cfg_only s = None) /\
  (forall s,
     FlorenceVisionTower.reachable L s ->
     FlorenceVisionTower.is_loaded s = true /\
     FlorenceVisionTower.cfg_only s = None).
Proof.
  split; [apply florence_init_body_eq|split; [|split]].
  - unfold FlorenceVisionTower.init; now rewrite florence_init_body_eq.
  - intros s tr' H.
    apply florence_init_inv in H as (Hl & Hc & _); split; assumption.
  - intros s H.
    apply florence_reachable_inv in H as (Hl & Hc & _); split; assumption.
Qed.

(** Built with [delay_load=True] and no [unfreeze_mm_vision_tower], the
    tower is loaded all the same. *)
Lemma florence_init_always_loads_witness :
  FlorenceVisionTower.init demo_lib "florence" demo_args true [] =
    (Ok demo_florence,
     [LoadAutoProcessor "florence" true; LoadAutoModel "florence" true]) /\
  FlorenceVisionTower.is_loaded demo_florence = true /\
  FlorenceVisionTower.cfg_only demo_florence = None.
Proof.
  split; [reflexivity|].
  apply (proj1 (proj2 (proj2
           (@florence_init_always_loads Z demo_lib "florence" demo_args true [])))
           demo_florence
           [LoadAutoProcessor "florence" true; LoadAutoModel "florence" true]).
  reflexivity.
Defined.


(** * Further properties of the code *)

(** ** The CLIP constructor *)

(** With [delay_load=True] and no (or a false) [unfreeze_mm_vision_tower],
    the CLIP constructor makes one runtime call, the config loader, and loads
    no weights.  If that call fails the constructor raises its failure; if it
    returns [c], the tower is not loaded and answers [config], [hidden_size]
    and [num_patches_per_side] from [c], while [dtype], [device] and
    [dummy_feature] raise [AttributeError], each naming the property that was
    read. *)
Theorem clip_delayed_tower_reads_cache (F : Type) (L : Library F)
    (name : string) (args : Args) (tr : Trace F) :
  getattr_default (unfreeze_mm_vision_tower args) false = false ->
  match CLIPVisionConfig_from_pretrained L name with
  | Failed code =>
      CLIPVisionTower.init L name args true tr =
        (Err (LibraryError code), tr ++ [LoadCLIPConfig name])
  | Returned c =>
      exists s,
        CLIPVisionTower.init L name args true tr =
          (Ok s, tr ++ [LoadCLIPConfig name]) /\
        CLIPVisionTower.is_loaded s = false /\
        CLIPVisionTower.config s = Ok c /\
        CLIPVisionTower.hidden_size s = Ok (c_hidden_size c) /\
        CLIPVisionTower.num_patches_per_side s =
          floordiv (c_image_size c) (c_patch_size c) /\
        CLIPVisionTower.dtype s = Err (AttributeError "dtype") /\
        CLIPVisionTower.device s = Err (AttributeError "device") /\
        CLIPVisionTower.dummy_feature L s =
          Err (AttributeError "dummy_feature")
  end.
Proof.
  intros Hu.
  unfold CLIPVisionTower.init, construct, CLIPVisionTower.init_body.
  rewrite Hu; run_monad.
  destruct (CLIPVisionConfig_from_pretrained L name) as [c|code]; simpl;
    [|reflexivity].
  eexists; split; [reflexivity|].
  do 3 (split; [reflexivity|]).
  split; [|repeat split].
  unfold CLIPVisionTower.num_patches_per_side, CLIPVisionTower.config.
  cbn [CLIPVisionTower.is_loaded CLIPVisionTower.cfg_only getattr rbind].
  apply property_floordiv.
Qed.

Lemma clip_delayed_tower_reads_cache_witness :
  getattr_default (unfreeze_mm_vision_tower demo_args) false = false /\
  exists s,
    CLIPVisionTower.init demo_lib "clip" demo_args true [] =
      (Ok s, [] ++ [LoadCLIPConfig "clip"]) /\
    CLIPVisionTower.is_loaded s = false /\
    CLIPVisionTower.config s = Ok demo_config /\
    CLIPVisionTower.hidden_size s = Ok (c_hidden_size demo_config) /\
    CLIPVisionTower.num_patches_per_side s =
      floordiv (c_image_size demo_config) (c_patch_size demo_config) /\
    CLIPVisionTower.dtype s = Err (AttributeError "dtype") /\
    CLIPVisionTower.device s = Err (AttributeError "device") /\
    CLIPVisionTower.dummy_feature demo_lib s =
      Err (AttributeError "dummy_feature").
Proof.
  split; [reflexivity|].
  exact (@clip_delayed_tower_reads_cache Z demo_lib "clip" demo_args []
           eq_refl).
Defined.

(** Without [delay_load], or with a true [unfreeze_mm_vision_tower]
    whatever [delay_load] is, the CLIP constructor is one [load_model] with
    no device map: when it returns, the tower is loaded, no config was cached,
    the only runtime calls were the processor loader and then the model loader
    with [device_map=None], and [select_layer] and [select_feature] are those
    of [args], the latter defaulting to ["patch"]. *)
Theorem clip_eager_constructor_loads (F : Type) (L : Library F)
    (name : string) (args : Args) (delay_load : bool) (tr : Trace F)
    (s : CLIPVisionTower.Tower) (tr' : Trace F) :
  delay_load = false \/ unfreeze_mm_vision_tower args = Some true ->
  CLIPVisionTower.init L name args delay_load tr = (Ok s, tr') ->
  CLIPVisionTower.is_loaded s = true /\
  CLIPVisionTower.cfg_only s = None /\
  (exists m, CLIPVisionTower.vision_tower s = Some m) /\
  tr' = tr ++ [LoadCLIPProcessor name; LoadCLIPModel name None] /\
  CLIPVisionTower.vision_tower_name s = name /\
  CLIPVisionTower.select_layer s = mm_vision_select_layer args /\
  CLIPVisionTower.select_feature s =
    match mm_vision_select_feature args with
    | Some mode => mode
    | None => "patch"
    end.
Proof.
  intros Hb.
  assert (E : CLIPVisionTower.init_body L args delay_load =
              CLIPVisionTower.load_model L None).
  { unfold CLIPVisionTower.init_body.
    destruct Hb as [->| ->]; [reflexivity|].
    destruct delay_load; reflexivity. }
  unfold CLIPVisionTower.init, construct; rewrite E.
  rewrite clip_load_model_unloaded by reflexivity; simpl.
  destruct (CLIPImageProcessor_from_pretrained L name) as [p|code];
    [|discriminate].
  destruct (CLIPVisionModel_from_pretrained L name None) as [m|code];
    [|discriminate].
  intros H; pair_inv H; simpl.
  rewrite <- app_assoc; simpl.
  repeat split; eauto.
Qed.

Lemma clip_eager_constructor_loads_witness :
  (true = false \/
   unfreeze_mm_vision_tower (mkArgs (-2) (Some "cls_patch") (Some true)) =
     Some true) /\
  CLIPVisionTower.init demo_lib "clip"
      (mkArgs (-2) (Some "cls_patch") (Some true)) true [] =
    (Ok demo_clip_cls_patch,
     [LoadCLIPProcessor "clip"; LoadCLIPModel "clip" None]) /\
  CLIPVisionTower.is_loaded demo_clip_cls_patch = true /\
  CLIPVisionTower.cfg_only demo_clip_cls_patch = None.
Proof.
  split; [right; reflexivity|].
  split; [reflexivity|].
  destruct (@clip_eager_constructor_loads Z demo_lib "clip"
              (mkArgs (-2) (Some "cls_patch") (Some true)) true []
              demo_clip_cls_patch
              [LoadCLIPProcessor "clip"; LoadCLIPModel "clip" None]
              (or_intror eq_refl) eq_refl) as (Hl & Hc & _).
  split; assumption.
Defined.

(** ** Loading *)

Lemma load_count_snoc_load (F : Type) (tr : Trace F) (ev : Event F) :
  is_load ev = true -> load_count (tr ++ [ev]) = S (load_count tr).
Proof.
  intros H; rewrite load_count_app; unfold load_count at 2; simpl.
  rewrite H; simpl; lia.
Qed.

Lemma load_count_mono (F : Type) (tr evs : Trace F) :
  (load_count tr <= load_count (tr ++ evs))%nat.
Proof. rewrite load_count_app; lia. Qed.

(** A [load_model] that raises, on either tower, raises a failure of the
    runtime; the tower was not loaded and is not loaded afterwards, its
    model and its cached config are as before, and the failure is not
    remembered: a further [load_model] calls a loader again. *)
Theorem failed_load_leaves_tower_unloaded (F : Type) (L : Library F) :
  failed_load_keeps_unloaded CLIPVisionTower.is_loaded
    CLIPVisionTower.vision_tower CLIPVisionTower.cfg_only
    (CLIPVisionTower.load_model L) /\
  failed_load_keeps_unloaded FlorenceVisionTower.is_loaded
    FlorenceVisionTower.vision_tower FlorenceVisionTower.cfg_only
    (FlorenceVisionTower.load_model L).
Proof.
  split; intros s dm tr e s' tr' H.
  - destruct (CLIPVisionTower.is_loaded s) eqn:El.
    { rewrite clip_load_model_loaded in H by assumption; discriminate. }
    assert (Retry : forall s0 tr0 dm0,
              CLIPVisionTower.is_loaded s0 = false ->
              (load_count tr0 <
               load_count (snd (snd (CLIPVisionTower.load_model L dm0 (s0, tr0)))))%nat).
    { intros s0 tr0 dm0 H0.
      rewrite clip_load_model_unloaded by assumption; cbv zeta.
      destruct (CLIPImageProcessor_from_pretrained L _); cbn [snd].
      - destruct (CLIPVisionModel_from_pretrained L _ _); cbn [snd];
          rewrite !load_count_snoc_load by reflexivity; lia.
      - rewrite load_count_snoc_load by reflexivity; lia. }
    rewrite clip_load_model_unloaded in H by assumption; cbv zeta in H.
    destruct (CLIPImageProcessor_from_pretrained L _) as [p|code].
    + destruct (CLIPVisionModel_from_pretrained L _ _) as [m|code];
        [discriminate|].
      pair_inv H.
      split; [eauto|].
      repeat (split; [assumption || reflexivity|]).
      split; [rewrite !load_count_snoc_load by reflexivity; lia|].
      intros dm'; apply Retry; assumption.
    + pair_inv H.
      split; [eauto|].
      repeat (split; [assumption || reflexivity|]).
      split; [rewrite load_count_snoc_load by reflexivity; lia|].
      intros dm'; apply Retry; assumption.
  - destruct (FlorenceVisionTower.is_loaded s) eqn:El.
    { rewrite florence_load_model_loaded in H by assumption; discriminate. }
    assert (Retry : forall s0 tr0 dm0,
              FlorenceVisionTower.is_loaded s0 = false ->
              (load_count tr0 <
               load_count
                 (snd (snd (FlorenceVisionTower.load_model L dm0 (s0, tr0)))))%nat).
    { intros s0 tr0 dm0 H0.
      rewrite florence_load_model_unloaded by assumption; cbv zeta.
      destruct (AutoProcessor_from_pretrained L _ true); cbn [snd].
      - destruct (AutoModelForCausalLM_from_pretrained L _ true); cbn [snd];
          rewrite !load_count_snoc_load by reflexivity; lia.
      - rewrite load_count_snoc_load by reflexivity; lia. }
    rewrite florence_load_model_unloaded in H by assumption; cbv zeta in H.
    destruct (AutoProcessor_from_pretrained L _ true) as [p|code].
    + destruct (AutoModelForCausalLM_from_pretrained L _ true) as [m|code];
        [discriminate|].
      pair_inv H.
      split; [eauto|].
      repeat (split; [assumption || reflexivity|]).
      split; [rewrite !load_count_snoc_load by reflexivity; lia|].
      intros dm'; apply Retry; assumption.
    + pair_inv H.
      split; [eauto|].
      repeat (split; [assumption || reflexivity|]).
      split; [rewrite load_count_snoc_load by reflexivity; lia|].
      intros dm'; apply Retry; assumption.
Qed.

(** Loading the delayed tower from a runtime whose model loader fails. *)
Lemma failed_load_leaves_tower_unloaded_witness :
  CLIPVisionTower.load_model demo_lib_no_weights None (demo_clip_delayed, []) =
    (Err (LibraryError 507),
     (CLIPVisionTower.set_image_processor (mkProcessor "clip")
        demo_clip_delayed,
      [LoadCLIPProcessor "clip"; LoadCLIPModel "clip" None])) /\
  CLIPVisionTower.is_loaded
    (CLIPVisionTower.set_image_processor (mkProcessor "clip")
       demo_clip_delayed) = false /\
  CLIPVisionTower.cfg_only
    (CLIPVisionTower.set_image_processor (mkProcessor "clip")
       demo_clip_delayed) = CLIPVisionTower.cfg_only demo_clip_delayed.
Proof.
  split; [reflexivity|].
  destruct (proj1 (failed_load_leaves_tower_unloaded demo_lib_no_weights)
              demo_clip_delayed None []
              (LibraryError 507)
              (CLIPVisionTower.set_image_processor (mkProcessor "clip")
                 demo_clip_delayed)
              [LoadCLIPProcessor "clip"; LoadCLIPModel "clip" None]
              eq_refl) as (_ & _ & Hl & _ & Hc & _).
  split; assumption.
Defined.

(** A first [load_model] that returns: both loaders returned, each was
    called once, the processor is stored as returned, and the stored model is
    the returned one with gradients switched off.  The CLIP tower hands its
    [device_map] to the model loader and keeps the model's dtype; the Florence
    tower calls its loaders with [trust_remote_code=True], hands no device map
    on, and converts the model to bfloat16. *)
Theorem first_load_freezes_model (F : Type) (L : Library F) :
  (forall s device_map tr s' tr',
     CLIPVisionTower.is_loaded s = false ->
     CLIPVisionTower.load_model L device_map (s, tr) = (Ok tt, (s', tr')) ->
     let name := CLIPVisionTower.vision_tower_name s in
     exists p m,
       CLIPImageProcessor_from_pretrained L name = Returned p /\
       CLIPVisionModel_from_pretrained L name device_map = Returned m /\
       CLIPVisionTower.image_processor s' = Some p /\
       CLIPVisionTower.vision_tower s' = Some (requires_grad_ false m) /\
       CLIPVisionTower.dtype s' = Ok (m_dtype m) /\
       CLIPVisionTower.is_loaded s' = true /\
       tr' = tr ++ [LoadCLIPProcessor name; LoadCLIPModel name device_map]) /\
  (forall s device_map tr s' tr',
     FlorenceVisionTower.is_loaded s = false ->
     FlorenceVisionTower.load_model L device_map (s, tr) = (Ok tt, (s', tr')) ->
     let name := FlorenceVisionTower.vision_tower_name s in
     exists p m,
       AutoProcessor_from_pretrained L name true = Returned p /\
       AutoModelForCausalLM_from_pretrained L name true = Returned m /\
       FlorenceVisionTower.image_processor s' = Some p /\
       FlorenceVisionTower.vision_tower s' =
         Some (requires_grad_ false (model_to BFloat16 m)) /\
       FlorenceVisionTower.dtype s' = Ok BFloat16 /\
       FlorenceVisionTower.is_loaded s' = true /\
       tr' = tr ++ [LoadAutoProcessor name true; LoadAutoModel name true]).
Proof.
  split; intros s dm tr s' tr' Hl H name; subst name.
  - rewrite clip_load_model_unloaded in H by assumption; cbv zeta in H.
    destruct (CLIPImageProcessor_from_pretrained L _) as [p|code];
      [|discriminate].
    destruct (CLIPVisionModel_from_pretrained L _ _) as [m|code];
      [|discriminate].
    pair_inv H; exists p, m.
    rewrite <- app_assoc; repeat split.
  - rewrite florence_load_model_unloaded in H by assumption; cbv zeta in H.
    destruct (AutoProcessor_from_pretrained L _ true) as [p|code];
      [|discriminate].
    destruct (AutoModelForCausalLM_from_pretrained L _ true) as [m|code];
      [|discriminate].
    pair_inv H; exists p, m.
    rewrite <- app_assoc; repeat split.
Qed.

(** Loading the delayed CLIP tower with a device map. *)
Lemma first_load_freezes_model_witness :
  CLIPVisionTower.is_loaded demo_clip_delayed = false /\
  CLIPVisionTower.load_model demo_lib (Some "auto")
      (demo_clip_delayed, [LoadCLIPConfig "clip"]) =
    (Ok tt,
     (CLIPVisionTower.mkTower true "clip" (-2) "patch"
        (Some (mkProcessor "clip")) (Some demo_clip_model) (Some demo_config),
      [LoadCLIPConfig "clip"; LoadCLIPProcessor "clip";
       LoadCLIPModel "clip" (Some "auto")])) /\
  exists p m,
    CLIPImageProcessor_from_pretrained demo_lib "clip" = Returned p /\
    CLIPVisionModel_from_pretrained demo_lib "clip" (Some "auto") = Returned m /\
    Some (mkProcessor "clip") = Some p /\
    Some demo_clip_model = Some (requires_grad_ false m) /\
    Ok Float16 = Ok (m_dtype m) /\
    true = true /\
    ([LoadCLIPConfig "clip"; LoadCLIPProcessor "clip";
      LoadCLIPModel "clip" (Some "auto")] : Trace Z) =
      [LoadCLIPConfig "clip"]
        ++ [LoadCLIPProcessor "clip"; LoadCLIPModel "clip" (Some "auto")].
Proof.
  split; [reflexivity|].
  split; [reflexivity|].
  exact (proj1 (first_load_freezes_model demo_lib)
           demo_clip_delayed (Some "auto") [LoadCLIPConfig "clip"]
           (CLIPVisionTower.mkTower true "clip" (-2) "patch"
              (Some (mkProcessor "clip")) (Some demo_clip_model)
              (Some demo_config))
           [LoadCLIPConfig "clip"; LoadCLIPProcessor "clip";
            LoadCLIPModel "clip" (Some "auto")]
           eq_refl eq_refl).
Defined.

(** Once a tower is loaded, neither [load_model] nor [forward] changes any
    of its attributes, whether the call returns or raises; on both
    classes. *)
Theorem loaded_tower_is_never_changed (F : Type) (L : Library F) :
  loaded_is_final CLIPVisionTower.is_loaded (CLIPVisionTower.load_model L)
    (CLIPVisionTower.forward L) /\
  loaded_is_final FlorenceVisionTower.is_loaded
    (FlorenceVisionTower.load_model L) (FlorenceVisionTower.forward L).
Proof.
  split; intros s tr Hl; split.
  - intros dm; now rewrite clip_load_model_loaded.
  - intros images.
    destruct (CLIPVisionTower.forward L images (s, tr)) as [r [s' tr']] eqn:E.
    apply clip_forward_spec in E as (-> & _); reflexivity.
  - intros dm; now rewrite florence_load_model_loaded.
  - intros images.
    destruct (FlorenceVisionTower.forward L images (s, tr))
      as [r [s' tr']] eqn:E.
    apply florence_forward_self in E; subst; reflexivity.
Qed.

Lemma loaded_tower_is_never_changed_witness :
  CLIPVisionTower.is_loaded demo_clip_odd = true /\
  fst (snd (CLIPVisionTower.load_model demo_lib (Some "auto")
              (demo_clip_odd, []))) = demo_clip_odd /\
  fst (snd (CLIPVisionTower.forward demo_lib (ImageList [demo_image])
              (demo_clip_odd, []))) = demo_clip_odd.
Proof.
  split; [reflexivity|].
  destruct (proj1 (loaded_tower_is_never_changed demo_lib) demo_clip_odd []
              eq_refl) as (H1 & H2).
  split; [apply H1|apply H2].
Defined.

(** ** [forward] *)

(** [forward] never loads: on a tower that holds no model (a delayed CLIP
    tower, say) it raises [AttributeError] without any runtime call.  The CLIP
    tower does so for a batch and for a non-empty list, naming [vision_tower],
    the attribute it reads first; the Florence tower does so for any input,
    naming [device], the property it reads first.  On an empty list the CLIP
    tower returns a pair of empty lists whatever its state. *)
Theorem forward_without_model_raises (F : Type) (L : Library F) :
  (forall s tr,
     CLIPVisionTower.forward L (ImageList []) (s, tr) =
       (Ok (VTuple [VList []; VList []]), (s, tr))) /\
  (forall s tr images,
     CLIPVisionTower.vision_tower s = None ->
     images <> ImageList [] ->
     CLIPVisionTower.forward L images (s, tr) =
       (Err (AttributeError "vision_tower"), (s, tr))) /\
  (forall s tr images,
     FlorenceVisionTower.vision_tower s = None ->
     FlorenceVisionTower.forward L images (s, tr) =
       (Err (AttributeError "device"), (s, tr))).
Proof.
  split; [reflexivity|split].
  - intros s tr images Hm Hne.
    destruct images as [t|[|image rest]]; [| congruence |];
      simpl; unfold CLIPVisionTower.encode; run_monad; rewrite Hm; reflexivity.
  - intros s tr images Hm.
    unfold FlorenceVisionTower.forward, FlorenceVisionTower.device; run_monad.
    rewrite Hm; reflexivity.
Qed.

Lemma forward_without_model_raises_witness :
  CLIPVisionTower.vision_tower demo_clip_delayed = None /\
  Batched demo_batch <> ImageList [] /\
  CLIPVisionTower.forward demo_lib (Batched demo_batch)
      (demo_clip_delayed, [LoadCLIPConfig "clip"]) =
    (Err (AttributeError "vision_tower"),
     (demo_clip_delayed, [LoadCLIPConfig "clip"])).
Proof.
  split; [reflexivity|].
  split; [discriminate|].
  apply (proj1 (proj2 (forward_without_model_raises demo_lib)));
    [reflexivity|discriminate].
Defined.

(** On a list, [CLIPVisionTower.forward] calls the model once per image, in
    list order, each time on the image moved to the model's device and dtype
    with a batch dimension added, and stops at the first image whose model
    call or feature selection raises: the calls recorded are those of a
    prefix of the list, the whole list when [forward] returns, and a
    non-empty prefix when it raises. *)
Theorem clip_forward_calls_in_order (F : Type) (L : Library F)
    (items : list (Tensor F)) (s : CLIPVisionTower.Tower) (m : Model)
    (tr : Trace F) (r : result (PyVal F)) (s' : CLIPVisionTower.Tower)
    (tr' : Trace F) :
  CLIPVisionTower.vision_tower s = Some m ->
  CLIPVisionTower.forward L (ImageList items) (s, tr) = (r, (s', tr')) ->
  exists n,
    (n <= List.length items)%nat /\
    tr' = tr ++ map (model_call_of L m) (firstn n items) /\
    (forall v, r = Ok v -> n = List.length items) /\
    (forall e, r = Err e -> (0 < n)%nat).
Proof.
  intros Hm.
  assert (Loop : forall items acc tr r s' tr',
    CLIPVisionTower.forward_loop L items acc (s, tr) = (r, (s', tr')) ->
    exists n,
      (n <= List.length items)%nat /\
      tr' = tr ++ map (model_call_of L m) (firstn n items) /\
      (forall fs, r = Ok fs -> n = List.length items) /\
      (forall e, r = Err e -> (0 < n)%nat)).
  { clear items tr r s' tr'.
    induction items as [|image rest IH]; intros acc tr r s' tr' H.
    - simpl in H; unfold ret in H; pair_inv H.
      exists 0%nat; simpl; rewrite app_nil_r.
      repeat split; [lia|discriminate].
    - simpl in H; unfold bind at 1 in H.
      assert (E : CLIPVisionTower.encode L true image (s, tr) =
                  (fst (CLIPVisionTower.encode L true image (s, tr)),
                   (s, tr ++ [model_call_of L m image]))).
      { unfold CLIPVisionTower.encode, CLIPVisionTower.device,
          CLIPVisionTower.dtype, model_call_of; run_monad; rewrite Hm; simpl.
        destruct (vision_model_call L m _ true) as [out|code]; simpl;
          [|reflexivity].
        destruct (CLIPVisionTower.feature_select s out); reflexivity. }
      rewrite E in H.
      destruct (fst (CLIPVisionTower.encode L true image (s, tr))) as [f|e].
      + apply IH in H as (n & Hn & -> & Hok & Herr).
        exists (S n); simpl; rewrite <- app_assoc; simpl.
        repeat split; [lia| |lia].
        intros fs Hfs; f_equal; eapply Hok; eassumption.
      + pair_inv H.
        exists 1%nat; simpl.
        repeat split; [lia|discriminate|lia]. }
  simpl; unfold bind at 1; intros H.
  destruct (CLIPVisionTower.forward_loop L items [] (s, tr))
    as [[fs|e] [s1 tr1]] eqn:E;
    apply Loop in E as (n & Hn & -> & Hok & Herr);
    unfold ret in H; pair_inv H; exists n; repeat split; try assumption.
  - intros v _; eapply Hok; reflexivity.
  - discriminate.
  - discriminate.
  - intros e0 _; eapply Herr; reflexivity.
Qed.

(** With the unknown mode ["cls"], the first of two images raises and the
    second is never sent to the model. *)
Lemma clip_forward_calls_in_order_witness :
  CLIPVisionTower.vision_tower demo_clip_odd = Some demo_clip_model /\
  CLIPVisionTower.forward demo_lib (ImageList [demo_image; demo_image])
      (demo_clip_odd, []) =
    (Err (ValueError "Unexpected select feature: cls"),
     (demo_clip_odd, [model_call_of demo_lib demo_clip_model demo_image])) /\
  exists n,
    (n <= 2)%nat /\
    [model_call_of demo_lib demo_clip_model demo_image] =
      [] ++ map (model_call_of demo_lib demo_clip_model)
              (firstn n [demo_image; demo_image]) /\
    (forall v : PyVal Z,
       Err (ValueError "Unexpected select feature: cls") = Ok v ->
       n = 2%nat) /\
    (forall e,
       @Err (PyVal Z) (ValueError "Unexpected select feature: cls") = Err e ->
       (0 < n)%nat).
Proof.
  split; [reflexivity|].
  split; [reflexivity|].
  exact (@clip_forward_calls_in_order Z demo_lib [demo_image; demo_image]
           demo_clip_odd demo_clip_model [] _ _ _ eq_refl eq_refl).
Defined.

Lemma tensor_to_unsqueeze0 (V : Type) (cast : Dtype -> V -> V) (dev : Device)
    (dt : Dtype) (t : Tensor V) :
  tensor_to cast dev dt (unsqueeze0 t) = unsqueeze0 (tensor_to cast dev dt t).
Proof. reflexivity. Qed.

(** What one pass through the model returns, as a function of the tower and
    the image alone. *)
Lemma clip_encode_result (F : Type) (L : Library F) (u : bool)
    (image : Tensor F) (s : CLIPVisionTower.Tower) (tr : Trace F) :
  fst (CLIPVisionTower.encode L u image (s, tr)) =
    rbind (getattr "vision_tower" (CLIPVisionTower.vision_tower s)) (fun m =>
      let moved := tensor_to (cast L) (m_device m) (m_dtype m) image in
      let x := if u then unsqueeze0 moved else moved in
      rbind (from_library (vision_model_call L m x true)) (fun out =>
        rmap (tensor_to_dtype (cast L) (t_dtype image))
             (CLIPVisionTower.feature_select s out))).
Proof.
  unfold CLIPVisionTower.encode, CLIPVisionTower.device, CLIPVisionTower.dtype.
  run_monad.
  destruct (CLIPVisionTower.vision_tower s) as [m|]; simpl; [|reflexivity].
  destruct (vision_model_call L m _ true) as [out|code]; simpl; [|reflexivity].
  destruct (CLIPVisionTower.feature_select s out); reflexivity.
Qed.

Lemma clip_encode_unsqueezed (F : Type) (L : Library F) (image : Tensor F)
    (s : CLIPVisionTower.Tower) (tr tr0 : Trace F) :
  fst (CLIPVisionTower.encode L true image (s, tr)) =
    fst (CLIPVisionTower.encode L false (unsqueeze0 image) (s, tr0)).
Proof.
  rewrite !clip_encode_result.
  destruct (CLIPVisionTower.vision_tower s) as [m|]; reflexivity.
Qed.

(** A list is processed image by image as batches of one: when
    [CLIPVisionTower.forward] returns on a list, the feature at each position
    is the feature [forward] returns on that image alone, given as a batch
    with the batch dimension added, on the same tower. *)
Theorem clip_forward_list_is_per_image_batch (F : Type) (L : Library F)
    (items : list (Tensor F)) (s : CLIPVisionTower.Tower) (tr : Trace F)
    (v : PyVal F) (h' : Heap CLIPVisionTower.Tower F) :
  CLIPVisionTower.forward L (ImageList items) (s, tr) = (Ok v, h') ->
  exists fs,
    v = VTuple [VList (map (@VTensor F) fs); VList (map (@VTensor F) fs)] /\
    Forall2
      (fun image f =>
         forall tr0,
           fst (CLIPVisionTower.forward L (Batched (unsqueeze0 image)) (s, tr0))
             = Ok (VTuple [VTensor f; VTensor f]))
      items fs.
Proof.
  assert (Loop : forall items acc tr fs h',
    CLIPVisionTower.forward_loop L items acc (s, tr) = (Ok fs, h') ->
    exists new,
      fs = acc ++ new /\
      Forall2
        (fun image f =>
           forall tr0,
             fst (CLIPVisionTower.forward L (Batched (unsqueeze0 image))
                    (s, tr0)) = Ok (VTuple [VTensor f; VTensor f]))
        items new).
  { clear items tr v h'.
    induction items as [|image rest IH]; intros acc tr fs h' H.
    - simpl in H; unfold ret in H; pair_inv H.
      exists []; split; [now rewrite app_nil_r|constructor].
    - simpl in H; unfold bind at 1 in H.
      destruct (CLIPVisionTower.encode L true image (s, tr))
        as [[f|e] [s1 tr1]] eqn:E; [|discriminate].
      pose proof (clip_encode_spec _ _ _ _ _ E) as (-> & _).
      apply IH in H as (new & -> & Hnew).
      exists (f :: new); split; [now rewrite <- app_assoc|].
      constructor; [|assumption].
      intros tr0; simpl; unfold bind, ret.
      pose proof (clip_encode_unsqueezed L image s tr tr0) as Hu.
      rewrite E in Hu; simpl in Hu.
      destruct (CLIPVisionTower.encode L false (unsqueeze0 image) (s, tr0))
        as [r0 h0]; simpl in Hu; subst r0; reflexivity. }
  simpl; unfold bind at 1; intros H.
  destruct (CLIPVisionTower.forward_loop L items [] (s, tr))
    as [[fs|e] [s1 tr1]] eqn:E; unfold ret in H; pair_inv H.
  apply Loop in E as (new & -> & Hnew).
  exists new; split; [reflexivity|assumption].
Qed.

Lemma clip_forward_list_is_per_image_batch_witness :
  exists v h',
    CLIPVisionTower.forward demo_lib (ImageList [demo_image; demo_image])
      (demo_clip, []) = (Ok v, h') /\
    exists fs,
      v = VTuple [VList (map (@VTensor Z) fs); VList (map (@VTensor Z) fs)] /\
      Forall2
        (fun image f =>
           forall tr0,
             fst (CLIPVisionTower.forward demo_lib
                    (Batched (unsqueeze0 image)) (demo_clip, tr0))
               = Ok (VTuple [VTensor f; VTensor f]))
        [demo_image; demo_image] fs.
Proof.
  eexists; eexists; split; [reflexivity|].
  eapply (@clip_forward_list_is_per_image_batch Z demo_lib
            [demo_image; demo_image] demo_clip []).
  reflexivity.
Defined.

(** The feature [CLIPVisionTower.forward] returns for a batch is the hidden
    state the model returned at [select_layer] (sliced under ["patch"]),
    converted to the dtype of the input: it has the input's dtype but stays on
    the device of that hidden state and is not moved to the input's device. *)
Theorem clip_forward_feature_of_hidden_state (F : Type) (L : Library F)
    (s : CLIPVisionTower.Tower) (m : Model) (t : Tensor F) (tr : Trace F)
    (f : Tensor F) (h' : Heap CLIPVisionTower.Tower F) :
  CLIPVisionTower.vision_tower s = Some m ->
  CLIPVisionTower.forward L (Batched t) (s, tr)
    = (Ok (VTuple [VTensor f; VTensor f]), h') ->
  exists out h,
    vision_model_call L m (tensor_to (cast L) (m_device m) (m_dtype m) t) true
      = Returned out /\
    py_index (hidden_states out) (CLIPVisionTower.select_layer s) = Ok h /\
    t_dtype f = t_dtype t /\
    t_device f = t_device h /\
    (CLIPVisionTower.select_feature s = "cls_patch" ->
     t_data f = nd_map (cast L (t_dtype t)) (t_data h)) /\
    (CLIPVisionTower.select_feature s = "patch" ->
     exists p, slice_dim1_from1 h = Ok p /\
               t_data f = nd_map (cast L (t_dtype t)) (t_data p)).
Proof.
  intros Hm H.
  assert (E : fst (CLIPVisionTower.encode L false t (s, tr)) = Ok f).
  { simpl in H; unfold bind, ret in H.
    destruct (CLIPVisionTower.encode L false t (s, tr)) as [[f0|e] h0];
      inversion H; reflexivity. }
  rewrite clip_encode_result, Hm in E; simpl in E.
  destruct (vision_model_call L m _ true) as [out|code]; [|discriminate].
  simpl in E; exists out.
  unfold CLIPVisionTower.feature_select in E.
  destruct (py_index _ _) as [h|e]; [|discriminate].
  exists h; split; [reflexivity|split]; [reflexivity|].
  simpl in E.
  destruct (String.eqb (CLIPVisionTower.select_feature s) "patch") eqn:Ep.
  - apply String.eqb_eq in Ep.
    destruct (slice_dim1_from1 h) as [p|e] eqn:Es; [|discriminate].
    inversion E; subst f; clear E; simpl.
    pose proof (slice_dim1_from1_drops _ Es) as (_ & Hdev & _).
    split; [reflexivity|split]; [assumption|split].
    + intros Hc; rewrite Hc in Ep; discriminate.
    + intros _; exists p; split; reflexivity.
  - destruct (String.eqb (CLIPVisionTower.select_feature s) "cls_patch")
      eqn:Ec; [|discriminate].
    inversion E; subst f; clear E; simpl.
    split; [reflexivity|split]; [reflexivity|split].
    + reflexivity.
    + intros Hp; rewrite Hp in Ep; discriminate.
Qed.

Lemma clip_forward_feature_of_hidden_state_witness :
  exists f h',
    CLIPVisionTower.vision_tower demo_clip = Some demo_clip_model /\
    CLIPVisionTower.forward demo_lib (Batched demo_batch) (demo_clip, [])
      = (Ok (VTuple [VTensor f; VTensor f]), h') /\
    t_dtype f = t_dtype demo_batch /\
    t_device f = Cuda 0 /\
    t_device demo_batch = Cpu.
Proof.
  eexists; eexists; split; [reflexivity|].
  split; [reflexivity|].
  destruct (@clip_forward_feature_of_hidden_state Z demo_lib demo_clip
              demo_clip_model demo_batch [] _ _ eq_refl eq_refl)
    as (out & h & Hcall & Hidx & Hdt & Hdev & _).
  split; [exact Hdt|].
  split; reflexivity.
Defined.

(** ** Feature selection *)

Lemma py_index_in_range (A : Type) (xs : list A) (i : Z) :
  let n := Z.of_nat (List.length xs) in
  - n <= i < n ->
  exists x, nth_error xs (Z.to_nat (i mod n)) = Some x /\ py_index xs i = Ok x.
Proof.
  intros n Hi; unfold py_index; fold n.
  assert (Hj : (if i <? 0 then i + n else i) = i mod n).
  { destruct (i <? 0) eqn:E.
    - apply Z.ltb_lt in E.
      rewrite <- (Z.mod_small (i + n) n) by lia.
      rewrite <- (Z_mod_plus_full i 1 n); f_equal; lia.
    - apply Z.ltb_ge in E; symmetry; apply Z.mod_small; lia. }
  rewrite Hj.
  assert (Hr : 0 <= i mod n < n) by (apply Z.mod_pos_bound; lia).
  assert (Hb : (i mod n <? 0) || (n <=? i mod n) = false).
  { apply orb_false_iff; split; [apply Z.ltb_ge|apply Z.leb_gt]; lia. }
  rewrite Hb.
  destruct (nth_error xs (Z.to_nat (i mod n))) as [x|] eqn:E.
  - exists x; split; reflexivity.
  - apply nth_error_None in E; lia.
Qed.

Lemma py_index_out_of_range (A : Type) (xs : list A) (i : Z) :
  let n := Z.of_nat (List.length xs) in
  i < - n \/ n <= i -> py_index xs i = Err IndexError.
Proof.
  intros n Hi; unfold py_index; fold n.
  assert (Hb : ((if i <? 0 then i + n else i) <? 0)
               || (n <=? (if i <? 0 then i + n else i)) = true).
  { apply orb_true_iff.
    destruct (i <? 0) eqn:E;
      [apply Z.ltb_lt in E|apply Z.ltb_ge in E];
      destruct Hi; [left; apply Z.ltb_lt|right; apply Z.leb_le
                   |left; apply Z.ltb_lt|right; apply Z.leb_le]; lia. }
  now rewrite Hb.
Qed.

(** [select_layer] indexes the model's hidden states as Python does: with
    [n] hidden states, a layer in [-n, n) selects the hidden state at position
    [select_layer mod n] (so [-1] is the last), and any other layer makes
    [feature_select] raise [IndexError], whatever the mode, an unknown mode
    included: the index is checked before the mode. *)
Theorem feature_select_layer_index (F : Type) (s : CLIPVisionTower.Tower)
    (out : ForwardOut F) :
  let n := Z.of_nat (List.length (hidden_states out)) in
  let layer := CLIPVisionTower.select_layer s in
  (layer < - n \/ n <= layer ->
   CLIPVisionTower.feature_select s out = Err IndexError) /\
  (- n <= layer < n ->
   exists h,
     nth_error (hidden_states out) (Z.to_nat (layer mod n)) = Some h /\
     (CLIPVisionTower.select_feature s = "cls_patch" ->
      CLIPVisionTower.feature_select s out = Ok h) /\
     (CLIPVisionTower.select_feature s = "patch" ->
      CLIPVisionTower.feature_select s out = slice_dim1_from1 h)).
Proof.
  intros n layer; split.
  - intros Hi; unfold CLIPVisionTower.feature_select.
    fold layer; rewrite (@py_index_out_of_range _ (hidden_states out) layer Hi).
    reflexivity.
  - intros Hi.
    destruct (@py_index_in_range _ (hidden_states out) layer Hi)
      as (h & Hn & Hp).
    exists h; split; [exact Hn|split]; intros Hmode.
    + rewrite (@clip_feature_select_cls_patch F s out Hmode).
      exact Hp.
    + rewrite (@clip_feature_select_patch F s out Hmode).
      fold layer; rewrite Hp; reflexivity.
Qed.

(** With three hidden states, layer [-2] is the middle one and layer [3]
    does not exist. *)
Lemma feature_select_layer_index_witness :
  let out := mkForwardOut [demo_hidden demo_clip_model demo_batch 0;
                           demo_hidden demo_clip_model demo_batch 1;
                           demo_hidden demo_clip_model demo_batch 2] in
  CLIPVisionTower.feature_select demo_clip_cls_patch out =
    Ok (demo_hidden demo_clip_model demo_batch 1) /\
  CLIPVisionTower.feature_select
    (CLIPVisionTower.mkTower true "clip" 3 "cls" None (Some demo_clip_model)
       None) out = Err IndexError.
Proof.
  intros out; split.
  - destruct (proj2 (@feature_select_layer_index Z demo_clip_cls_patch out))
      as (h & Hn & Hc & _); [simpl; lia|].
    rewrite (Hc eq_refl); f_equal.
    simpl in Hn; congruence.
  - apply (proj1 (@feature_select_layer_index Z
                    (CLIPVisionTower.mkTower true "clip" 3 "cls" None
                       (Some demo_clip_model) None) out)).
    right; simpl; lia.
Defined.

Lemma slice_token_counts (F : Type) (t : Tensor F) :
  match token_counts t with
  | Some counts =>
      exists p, slice_dim1_from1 t = Ok p /\
                token_counts p = Some (map Nat.pred counts)
  | None => slice_dim1_from1 t = Err IndexError
  end.
Proof.
  unfold token_counts, slice_dim1_from1, nd_slice_dim1_from1.
  destruct (t_data t) as [v|rows]; [reflexivity|].
  set (step := fun (r : NDArray F) (acc : option (list nat)) =>
                 match r, acc with
                 | Arr tokens, Some counts => Some (List.length tokens :: counts)
                 | _, _ => None
                 end).
  assert (G : match fold_right step (Some []) rows with
              | Some counts =>
                  exists rows',
                    collect (map (@drop_first_row F) rows) = Ok rows' /\
                    fold_right step (Some []) rows' = Some (map Nat.pred counts)
              | None => collect (map (@drop_first_row F) rows) = Err IndexError
              end).
  { induction rows as [|r rows IH]; simpl.
    - exists []; split; reflexivity.
    - destruct (fold_right step (Some []) rows) as [counts|].
      + destruct IH as (rows' & E & Hc).
        destruct r as [v|tokens]; simpl; [reflexivity|].
        rewrite E; simpl.
        eexists; split; [reflexivity|].
        simpl; rewrite Hc; simpl.
        do 2 f_equal; destruct tokens; reflexivity.
      + destruct r as [v|tokens]; simpl; [reflexivity|].
        rewrite IH; reflexivity. }
  destruct (fold_right step (Some []) rows) as [counts|].
  - destruct G as (rows' & E & Hc); rewrite E; simpl.
    eexists; split; [reflexivity|exact Hc].
  - rewrite G; reflexivity.
Qed.

(** Under ["patch"], when the selected hidden state holds at least one
    sequence, every sequence loses one token and an empty sequence stays
    empty, the number of sequences being kept; on a hidden state that is a
    scalar or whose entries are scalars, hence without a sequence dimension,
    the selection raises [IndexError], although ["cls_patch"] returns it. *)
Theorem patch_removes_one_token_per_sequence (F : Type)
    (s_patch s_cls : CLIPVisionTower.Tower) (out : ForwardOut F)
    (h : Tensor F) :
  CLIPVisionTower.select_feature s_patch = "patch" ->
  CLIPVisionTower.select_feature s_cls = "cls_patch" ->
  CLIPVisionTower.select_layer s_patch = CLIPVisionTower.select_layer s_cls ->
  CLIPVisionTower.feature_select s_cls out = Ok h ->
  (forall count counts,
     token_counts h = Some (count :: counts) ->
     exists p,
       CLIPVisionTower.feature_select s_patch out = Ok p /\
       token_counts p = Some (Nat.pred count :: map Nat.pred counts)) /\
  (token_counts h = None ->
   CLIPVisionTower.feature_select s_patch out = Err IndexError).
Proof.
  intros Hp Hc Hl Hh.
  rewrite (@clip_feature_select_cls_patch F s_cls out Hc) in Hh.
  rewrite (@clip_feature_select_patch F s_patch out Hp), Hl, Hh; simpl.
  pose proof (slice_token_counts h) as H.
  split.
  - intros count counts E; rewrite E in H; exact H.
  - intros E; rewrite E in H; exact H.
Qed.

(** Two sequences of three tokens become two sequences of two tokens. *)
Lemma patch_removes_one_token_per_sequence_witness :
  let out := mkForwardOut [demo_hidden demo_clip_model demo_batch 0;
                           demo_hidden demo_clip_model demo_batch 1;
                           demo_hidden demo_clip_model demo_batch 2] in
  token_counts (demo_hidden demo_clip_model demo_batch 1)
    = Some [3%nat; 3%nat] /\
  exists p, CLIPVisionTower.feature_select demo_clip out = Ok p /\
            token_counts p = Some [2%nat; 2%nat].
Proof.
  intros out; split; [reflexivity|].
  exact (proj1 (@patch_removes_one_token_per_sequence Z demo_clip
                  demo_clip_cls_patch out
                  (demo_hidden demo_clip_model demo_batch 1)
                  eq_refl eq_refl eq_refl eq_refl)
           3%nat [3%nat] eq_refl).
Defined.

(** ** The accessors *)

(** Whenever [config] returns (on a loaded tower, or on a delayed CLIP tower
    from its cached config) and the patch size is positive,
    [num_patches_per_side] is the number of whole patches that fit in one
    side of the image: that many patches fit and one more would not, a
    remainder of the image being left out; with patch size 0 both
    [num_patches_per_side] and [num_patches] raise [ZeroDivisionError].  On
    both classes. *)
Theorem patches_per_side_fit_image :
  side_brackets_image CLIPVisionTower.config
    CLIPVisionTower.num_patches_per_side CLIPVisionTower.num_patches /\
  side_brackets_image FlorenceVisionTower.config
    FlorenceVisionTower.num_patches_per_side FlorenceVisionTower.num_patches.
Proof.
  assert (B : forall i p, 0 < p -> (i / p) * p <= i < (i / p + 1) * p).
  { intros i p Hp.
    pose proof (Z.div_mod i p ltac:(lia)) as E.
    pose proof (Z.mod_pos_bound i p Hp) as R.
    nia. }
  split; intros s c Hc; split.
  - intros Hp; exists (c_image_size c / c_patch_size c).
    unfold CLIPVisionTower.num_patches_per_side, CLIPVisionTower.num_patches.
    rewrite Hc; simpl.
    rewrite floordiv_nonzero by lia.
    split; [reflexivity|split]; [reflexivity|now apply B].
  - intros Hz.
    unfold CLIPVisionTower.num_patches_per_side, CLIPVisionTower.num_patches.
    rewrite Hc; simpl; unfold floordiv; rewrite Hz; split; reflexivity.
  - intros Hp; exists (c_image_size c / c_patch_size c).
    unfold FlorenceVisionTower.num_patches_per_side,
      FlorenceVisionTower.num_patches.
    rewrite Hc; simpl.
    rewrite floordiv_nonzero by lia.
    split; [reflexivity|split]; [reflexivity|now apply B].
  - intros Hz.
    unfold FlorenceVisionTower.num_patches_per_side,
      FlorenceVisionTower.num_patches.
    rewrite Hc; simpl; unfold floordiv; rewrite Hz; split; reflexivity.
Qed.

(** A 225-pixel side holds 16 patches of 14 pixels, one pixel being left
    over; the tower is a delayed one and answers from its cached config. *)
Lemma patches_per_side_fit_image_witness :
  CLIPVisionTower.config demo_clip_uneven = Ok (mkConfig 768 225 14) /\
  0 < 14 /\
  exists side,
    CLIPVisionTower.num_patches_per_side demo_clip_uneven = Ok side /\
    CLIPVisionTower.num_patches demo_clip_uneven = Ok (side ^ 2) /\
    side * 14 <= 225 < (side + 1) * 14.
Proof.
  split; [reflexivity|].
  split; [lia|].
  apply (proj1 patches_per_side_fit_image demo_clip_uneven
           (mkConfig 768 225 14) eq_refl).
  simpl; lia.
Defined.



(** ** Florence towers a caller can hold *)

Lemma florence_reachable_frozen (F : Type) (L : Library F)
    (s : FlorenceVisionTower.Tower) :
  FlorenceVisionTower.reachable L s ->
  FlorenceVisionTower.is_loaded s = true /\ holds_frozen_bfloat16 s.
Proof.
  induction 1 as [name args delay_load tr s tr' Hinit
                 |s dm tr r s' tr' _ IH Hstep
                 |s images tr r s' tr' _ IH Hstep].
  - unfold FlorenceVisionTower.init, construct in Hinit.
    rewrite florence_init_body_eq in Hinit.
    rewrite florence_load_model_unloaded in Hinit by reflexivity.
    cbv zeta in Hinit.
    destruct (AutoProcessor_from_pretrained L _ true) as [p|code];
      [|discriminate].
    destruct (AutoModelForCausalLM_from_pretrained L _ true) as [m|code];
      [|discriminate].
    pair_inv Hinit; split; [reflexivity|].
    eexists; repeat split.
  - destruct IH as (Hl & Hf).
    rewrite florence_load_model_loaded in Hstep by assumption.
    pair_inv Hstep; split; assumption.
  - apply florence_forward_self in Hstep; subst; assumption.
Qed.

(** Every Florence tower a caller can hold (what the constructor returned,
    after any calls of [load_model] and [forward]) holds a bfloat16 model with
    gradients switched off, so [dtype] is bfloat16 whatever dtype the
    checkpoint had.  [forward] on it always reaches [generate], exactly once,
    and its outcome is that of [generate]: the pair of image feature and
    encoder last hidden state when [generate] returns, and the failure of
    [generate], passed on as it is, when it fails; the tower raises nothing of
    its own. *)
Theorem florence_tower_is_always_ready (F : Type) (L : Library F)
    (s : FlorenceVisionTower.Tower) :
  FlorenceVisionTower.reachable L s ->
  holds_frozen_bfloat16 s /\
  FlorenceVisionTower.dtype s = Ok BFloat16 /\
  exists m,
    FlorenceVisionTower.vision_tower s = Some m /\
    forall images tr,
      exists args,
        pixel_values args = images /\
        snd (FlorenceVisionTower.forward L images (s, tr)) =
          (s, tr ++ [CallGenerate m args]) /\
        fst (FlorenceVisionTower.forward L images (s, tr)) =
          match generate L m args with
          | Returned out =>
              Ok (VTuple [VTensor (image_feature out);
                          VTensor (encoder_last_hidden_state out)])
          | Failed code => Err (LibraryError code)
          end.
Proof.
  intros Hs.
  destruct (florence_reachable_frozen Hs) as (_ & Hf).
  split; [exact Hf|].
  destruct Hf as (m & Hm & Hdt & _).
  split; [unfold FlorenceVisionTower.dtype; rewrite Hm; simpl; now f_equal|].
  exists m; split; [exact Hm|].
  intros images tr.
  rewrite florence_forward_loaded with (m := m) by assumption; cbv zeta.
  eexists; split; [|split]; [|reflexivity|];
    [reflexivity|].
  simpl; destruct (generate L m _); reflexivity.
Qed.

(** The demo checkpoint is float32; the tower built from it is bfloat16. *)
Lemma florence_tower_is_always_ready_witness :
  AutoModelForCausalLM_from_pretrained demo_lib "florence" true =
    Returned (mkModel "florence" Float32 (Cuda 0) demo_config true) /\
  FlorenceVisionTower.reachable demo_lib demo_florence /\
  FlorenceVisionTower.dtype demo_florence = Ok BFloat16.
Proof.
  split; [reflexivity|].
  assert (Hr : FlorenceVisionTower.reachable demo_lib demo_florence).
  { apply FlorenceVisionTower.reach_init with
      (name := "florence") (args := demo_args) (delay_load := false)
      (tr := [])
      (tr' := [LoadAutoProcessor "florence" true; LoadAutoModel "florence" true]).
    reflexivity. }
  split; [exact Hr|].
  exact (proj1 (proj2 (@florence_tower_is_always_ready Z demo_lib
                         demo_florence Hr))).
Defined.

(** ** CLIP towers a caller can hold *)

Lemma clip_load_model_consistent (F : Type) (L : Library F)
    (s : CLIPVisionTower.Tower) device_map (tr : Trace F) r s' tr' :
  clip_load_state_consistent s ->
  CLIPVisionTower.load_model L device_map (s, tr) = (r, (s', tr')) ->
  clip_load_state_consistent s'.
Proof.
  unfold clip_load_state_consistent; intros Hs.
  destruct (CLIPVisionTower.is_loaded s) eqn:El.
  - rewrite clip_load_model_loaded by assumption.
    intros H; pair_inv H; rewrite El; assumption.
  - rewrite clip_load_model_unloaded by assumption; cbv zeta.
    destruct Hs as (Hm & c & Hc).
    destruct (CLIPImageProcessor_from_pretrained L _) as [p|code].
    + destruct (CLIPVisionModel_from_pretrained L _ _) as [m|code];
        intros H; pair_inv H; simpl.
      * eexists; split; reflexivity.
      * rewrite El; eauto.
    + intros H; pair_inv H; rewrite El; eauto.
Qed.

(** On every CLIP tower a caller can hold, [is_loaded] tells whether a model
    is held.  A loaded tower holds a model with gradients switched off.  An
    unloaded one holds no model, even after a [load_model] that failed half
    way: its [dtype] raises [AttributeError] naming [dtype], and [forward] on
    anything but an empty list raises [AttributeError] naming [vision_tower],
    while its cached config is there. *)
Theorem clip_is_loaded_tells_model (F : Type) (L : Library F)
    (s : CLIPVisionTower.Tower) :
  CLIPVisionTower.reachable L s ->
  clip_load_state_consistent s /\
  (CLIPVisionTower.is_loaded s = false ->
   CLIPVisionTower.dtype s = Err (AttributeError "dtype") /\
   forall images tr,
     images <> ImageList [] ->
     fst (CLIPVisionTower.forward L images (s, tr)) =
       Err (AttributeError "vision_tower")).
Proof.
  intros Hs.
  assert (Hc : clip_load_state_consistent s).
  { induction Hs as [name args delay_load tr s tr' Hinit
                    |s dm tr r s' tr' _ IH Hstep
                    |s images tr r s' tr' _ IH Hstep].
    - unfold CLIPVisionTower.init, construct in Hinit.
      assert (Hload : forall s0 tr0,
        match CLIPVisionTower.load_model L None
                (CLIPVisionTower.fresh name args, tr) with
        | (Ok _, (obj, tr1)) => (Ok obj, tr1)
        | (Err e, (_, tr1)) => (Err e, tr1)
        end = (Ok s0, tr0) -> clip_load_state_consistent s0).
      { intros s0 tr0.
        rewrite clip_load_model_unloaded by reflexivity; cbv zeta.
        destruct (CLIPImageProcessor_from_pretrained L _) as [p|code];
          [|discriminate].
        destruct (CLIPVisionModel_from_pretrained L _ _) as [m|code];
          [|discriminate].
        intros H; pair_inv H.
        unfold clip_load_state_consistent; simpl.
        eexists; split; reflexivity. }
      unfold CLIPVisionTower.init_body in Hinit.
      destruct delay_load; simpl in Hinit; [|eapply Hload; eassumption].
      destruct (getattr_default (unfreeze_mm_vision_tower args) false);
        [eapply Hload; eassumption|].
      run_monad.
      destruct (CLIPVisionConfig_from_pretrained L name) as [c|code];
        simpl in Hinit; pair_inv Hinit.
      unfold clip_load_state_consistent; simpl; eauto.
    - eapply clip_load_model_consistent; eassumption.
    - apply clip_forward_spec in Hstep as (-> & _); assumption. }
  split; [exact Hc|].
  intros Hl; unfold clip_load_state_consistent in Hc; rewrite Hl in Hc.
  destruct Hc as (Hm & _).
  split; [unfold CLIPVisionTower.dtype; rewrite Hm; reflexivity|].
  intros images tr Hne.
  destruct images as [t|[|image rest]]; [| congruence |];
    simpl; unfold CLIPVisionTower.encode; run_monad; rewrite Hm; reflexivity.
Qed.

(** The tower left behind by a load whose model loader failed: a processor is
    stored, but it is unloaded and holds no model. *)
Lemma clip_is_loaded_tells_model_witness :
  CLIPVisionTower.reachable demo_lib_no_weights
    (CLIPVisionTower.set_image_processor (mkProcessor "clip")
       demo_clip_delayed) /\
  CLIPVisionTower.dtype
    (CLIPVisionTower.set_image_processor (mkProcessor "clip")
       demo_clip_delayed) = Err (AttributeError "dtype").
Proof.
  assert (Hr : CLIPVisionTower.reachable demo_lib_no_weights
                 (CLIPVisionTower.set_image_processor (mkProcessor "clip")
                    demo_clip_delayed)).
  { apply CLIPVisionTower.reach_load_model with
      (s := demo_clip_delayed) (device_map := None)
      (tr := [LoadCLIPConfig "clip"]) (r := Err (LibraryError 507))
      (tr' := [LoadCLIPConfig "clip"; LoadCLIPProcessor "clip";
               LoadCLIPModel "clip" None]).
    - apply CLIPVisionTower.reach_init with
        (name := "clip") (args := demo_args) (delay_load := true)
        (tr := []) (tr' := [LoadCLIPConfig "clip"]).
      reflexivity.
    - reflexivity. }
  split; [exact Hr|].
  exact (proj1 (proj2 (@clip_is_loaded_tells_model Z demo_lib_no_weights _ Hr)
                  eq_refl)).
Defined.
